(** * chi: the Mux request router (mux.go)

    A shallow embedding of [Mux] and of its methods, with the Go heap made
    explicit: routers, routing trees and routing contexts are pointers in
    Go, so here they are keys into finite maps of a [World].  A handler is
    a first-order description of the closure the Go code builds; [serve]
    runs it.  A Go panic is the [Panicked] result and carries the state at
    the moment of the panic. *)

From Stdlib Require Import ZArith Ascii String.
From stdpp Require Import base option gmap strings list pretty.

Local Open Scope string_scope.
Local Open Scope list_scope.

(** ** Method bit flags *)

(** Modelled from the spec: the [Method] constants and [MethodMap] are
    declared outside mux.go.  The spec fixes them as one bit per real
    method, [ANY] as the union of the nine real methods and [_STUB] as one
    more bit; the bit positions follow the order in which the spec lists
    them. *)
Module Method.
Definition CONNECT : Z := Z.shiftl 1 0.
Definition DELETE : Z := Z.shiftl 1 1.
Definition GET : Z := Z.shiftl 1 2.
Definition HEAD : Z := Z.shiftl 1 3.
Definition OPTIONS : Z := Z.shiftl 1 4.
Definition PATCH : Z := Z.shiftl 1 5.
Definition POST : Z := Z.shiftl 1 6.
Definition PUT : Z := Z.shiftl 1 7.
Definition TRACE : Z := Z.shiftl 1 8.
Definition _STUB : Z := Z.shiftl 1 9.

Definition real : list Z :=
  [CONNECT; DELETE; GET; HEAD; OPTIONS; PATCH; POST; PUT; TRACE].

Definition ANY : Z := foldr Z.lor 0%Z real.

(** [Contains set flag] of the spec. *)
Definition Contains (set flag : Z) : bool := Z.eqb (Z.land set flag) flag.

Definition table : list (string * Z) :=
  [("CONNECT", CONNECT); ("DELETE", DELETE); ("GET", GET); ("HEAD", HEAD);
   ("OPTIONS", OPTIONS); ("PATCH", PATCH); ("POST", POST); ("PUT", PUT);
   ("TRACE", TRACE)].

(** [MethodMap[name]], with Go's comma-ok result as an option. *)
Definition MethodMap (name : string) : option Z :=
  snd <$> List.find (fun e => String.eqb (fst e) name) table.
End Method.

(** ** Pointers, handlers and requests *)

Abbreviation MuxId := nat (only parsing).
Abbreviation TreeId := nat (only parsing).
Abbreviation CtxId := nat (only parsing).

(** The handlers mux.go builds or receives.  [UserHandler] and the
    middlewares are the caller's code, known by a name only. *)
Inductive Handler : Type :=
| UserHandler (name : nat)
| HttpNotFound                                  (* http.NotFound *)
| RouteHTTP (mx : MuxId)                        (* http.HandlerFunc(mx.routeHTTP) *)
| MuxHandler (mx : MuxId)                       (* a *Mux passed as http.Handler *)
| SubHandler (next : Handler)                   (* the closure built by Mount *)
| Chained (mws : list nat) (endpoint : Handler) (* middlewares around an endpoint *).

(** Modelled from the spec: [chain] and [Chain(...).Handler] live outside
    mux.go; section 4.2 of the spec composes the middlewares around the
    terminal handler and returns the terminal handler unchanged when there
    are none. *)
Definition chain (mws : list nat) (endpoint : Handler) : Handler :=
  match mws with
  | [] => endpoint
  | _ => Chained mws endpoint
  end.

(** A [context.Context] as the router sees it: the values of the caller
    (opaque) and the routing context it carries, if any. *)
Record Scope : Type := MkScope {
  ambient : nat;
  routing : option CtxId
}.

Record Request : Type := MkRequest {
  r_Method : string;
  r_Path : string;       (* r.URL.Path *)
  r_Context : Scope      (* r.Context() *)
}.

(** [r.WithContext(rctx)]: the routing context becomes the request's
    scope; the caller's values stay reachable through its parent. *)
Definition WithContext (r : Request) (rctx : CtxId) : Request :=
  MkRequest (r_Method r) (r_Path r)
            (MkScope (ambient (r_Context r)) (Some rctx)).

(** Modelled from the spec: the [Context] type is declared outside
    mux.go.  Section 3 gives its fields: the captured parameters as a
    mapping with unique keys, the override path, and the link to the
    enclosing scope. *)
Record Context : Type := MkContext {
  parent : option Scope;
  RoutePath : string;
  Params : gmap string string
}.

Definition NewRouteContext : Context := MkContext None EmptyString ∅.

(** [rctx.reset()]: parameters and override path cleared. *)
Definition reset (c : Context) : Context := MkContext None EmptyString ∅.

(** [ps.Del(key)]: removes the entry and returns its value, the empty
    string when there is none. *)
Definition Params_Del (key : string) (ps : gmap string string)
  : string * gmap string string :=
  (default EmptyString (ps !! key), delete key ps).

(** ** The router record *)

(** [sync.Pool]: the free list and whether [New] was set. *)
Record Pool : Type := MkPool {
  pool_New : bool;
  pool_free : list CtxId
}.

Record Mux : Type := MkMux {
  tree : TreeId;
  middlewares : list nat;
  inline : bool;
  handler : option Handler;
  pool : Pool;
  notFoundHandler : option Handler
}.

Definition with_handler (h : option Handler) (m : Mux) : Mux :=
  MkMux (tree m) (middlewares m) (inline m) h (pool m) (notFoundHandler m).

Definition with_middlewares (mws : list nat) (m : Mux) : Mux :=
  MkMux (tree m) mws (inline m) (handler m) (pool m) (notFoundHandler m).

Definition with_notFoundHandler (h : option Handler) (m : Mux) : Mux :=
  MkMux (tree m) (middlewares m) (inline m) (handler m) (pool m) h.

Definition with_pool_free (l : list CtxId) (m : Mux) : Mux :=
  MkMux (tree m) (middlewares m) (inline m) (handler m)
        (MkPool (pool_New (pool m)) l) (notFoundHandler m).

(** What a request leaves behind: the calls on the response writer and the
    queries of the pattern store. *)
Inductive Event : Type :=
| WriteHeader (code : Z)
| Write (body : string)
| Find (t : TreeId) (path : string).

(** ** The pattern store *)

(** Modelled from the spec: [node], the routing tree, is declared outside
    mux.go and the spec leaves its representation open; the heap below
    depends on this type only. *)
Class NodeType : Type := node : Type.

(** Modelled from the spec: [InsertRoute], [FindRoute] and [findPattern]
    are defined with the routing tree, outside mux.go.  Section 6 of the
    spec gives the interface and leaves the matching algorithm open, so the
    router is stated over any store with these operations. *)
Class PatternStore {N : NodeType} : Type := {
  (** the [*node] handed back by [InsertRoute] *)
  endpoint : Type;
  (** [&node{}] *)
  empty_node : node;
  InsertRoute : Z -> string -> Handler -> node -> node * endpoint;
  (** [n.subrouter = subr] *)
  set_subrouter : endpoint -> MuxId -> node -> node;
  (** the method-to-handler mapping of the match, and the parameters of
      the routing context after the captures were written *)
  FindRoute : node -> gmap string string -> string ->
              option (gmap Z Handler) * gmap string string;
  findPattern : node -> string -> bool
}.

(** Modelled from the spec: [HasPattern] is an exact existence check on
    the stored patterns (section 6), so a pattern is found once it was
    inserted, and marking a sub-router stores no pattern. *)
Class PatternStoreContract {N : NodeType} (store : PatternStore) : Prop := {
  findPattern_InsertRoute : forall m p h t,
    findPattern (fst (InsertRoute m p h t)) p = true;
  findPattern_set_subrouter : forall n s t q,
    findPattern (set_subrouter n s t) q = findPattern t q
}.

(** ** Patterns as Go strings *)

(** The byte ['/'] (0x2f). *)
Definition slash : ascii :=
  Ascii.Ascii true true true true false true false false.

(** [len(pattern) != 0 && pattern[0] == '/'] *)
Definition begins_with_slash (pattern : string) : bool :=
  match pattern with
  | String c _ => Ascii.eqb c slash
  | EmptyString => false
  end.

(** [pattern[len(pattern)-1]], when there is one. *)
Fixpoint last_byte (pattern : string) : option ascii :=
  match pattern with
  | EmptyString => None
  | String c EmptyString => Some c
  | String _ rest => last_byte rest
  end.

(** [pattern] is empty or [pattern[len(pattern)-1] != '/']. *)
Definition lacks_trailing_slash (pattern : string) : bool :=
  String.eqb pattern EmptyString ||
  match last_byte pattern with
  | Some c => negb (Ascii.eqb c slash)
  | None => true
  end.

Definition is_nil {A} (o : option A) : bool :=
  match o with
  | None => true
  | Some _ => false
  end.

(** The type assertion of [handler] to a [Mux] pointer. *)
Definition as_Mux (h : Handler) : option MuxId :=
  match h with
  | MuxHandler s => Some s
  | _ => None
  end.

(** ** Heap, results and the router monad *)

Section Router.
Context {N : NodeType}.

Record World : Type := MkWorld {
  muxes : gmap MuxId Mux;
  trees : gmap TreeId node;
  contexts : gmap CtxId Context;
  response : list Event
}.

Definition with_muxes (f : gmap MuxId Mux -> gmap MuxId Mux) (w : World) : World :=
  MkWorld (f (muxes w)) (trees w) (contexts w) (response w).

Definition with_trees (f : gmap TreeId node -> gmap TreeId node) (w : World) : World :=
  MkWorld (muxes w) (f (trees w)) (contexts w) (response w).

Definition with_contexts (f : gmap CtxId Context -> gmap CtxId Context) (w : World) : World :=
  MkWorld (muxes w) (trees w) (f (contexts w)) (response w).

Definition emit (evs : list Event) (w : World) : World :=
  MkWorld (muxes w) (trees w) (contexts w) (response w ++ evs).

(** A call returns a value, panics, or is cut short by the fuel of
    [serve]; a panic keeps the state it left behind. *)
Inductive Result (A : Type) : Type :=
| Return (a : A) (w : World)
| Panicked (msg : string) (w : World)
| OutOfFuel.
Global Arguments Return {A} a w.
Global Arguments Panicked {A} msg w.
Global Arguments OutOfFuel {A}.

Definition M (A : Type) : Type := World -> Result A.

Definition ret {A} (a : A) : M A := fun w => Return a w.

Definition bind {A B} (m : M A) (k : A -> M B) : M B :=
  fun w =>
    match m w with
    | Return a w' => k a w'
    | Panicked msg w' => Panicked msg w'
    | OutOfFuel => OutOfFuel
    end.

Definition panic {A} (msg : string) : M A := fun w => Panicked msg w.

Definition modify (f : World -> World) : M unit := fun w => Return tt (f w).

Notation "'let*' x := m 'in' k" := (bind m (fun x => k))
  (at level 10, x name, m at level 100, k at level 200, only parsing).
Notation "'let*' ' p := m 'in' k" := (bind m (fun y => match y with p => k end))
  (at level 10, p pattern, m at level 100, k at level 200, only parsing).
Notation "m >>> k" := (bind m (fun _ => k))
  (at level 100, k at level 200, right associativity, only parsing).

Definition nil_dereference : string :=
  "runtime error: invalid memory address or nil pointer dereference".

(** Reading through a pointer. *)
Definition get_mux (mx : MuxId) : M Mux :=
  fun w => match muxes w !! mx with
           | Some m => Return m w
           | None => Panicked nil_dereference w
           end.

Definition get_tree (t : TreeId) : M node :=
  fun w => match trees w !! t with
           | Some n => Return n w
           | None => Panicked nil_dereference w
           end.

Definition get_context (c : CtxId) : M Context :=
  fun w => match contexts w !! c with
           | Some x => Return x w
           | None => Panicked nil_dereference w
           end.

Definition set_mux (mx : MuxId) (m : Mux) : M unit :=
  modify (with_muxes (insert mx m)).

Definition set_tree (t : TreeId) (n : node) : M unit :=
  modify (with_trees (insert t n)).

Definition set_context (c : CtxId) (x : Context) : M unit :=
  modify (with_contexts (insert c x)).

(** Allocation: a pointer no record is stored under yet. *)
Definition alloc_mux (m : Mux) : M MuxId :=
  fun w => let mx := fresh (dom (muxes w)) in
           Return mx (with_muxes (insert mx m) w).

Definition alloc_tree (n : node) : M TreeId :=
  fun w => let t := fresh (dom (trees w)) in
           Return t (with_trees (insert t n) w).

Definition alloc_context (x : Context) : M CtxId :=
  fun w => let c := fresh (dom (contexts w)) in
           Return c (with_contexts (insert c x) w).

(** ** Registration *)

Context {store : PatternStore}.

Definition NewMux : M MuxId :=
  let* t := alloc_tree empty_node in
  alloc_mux (MkMux t [] false None (MkPool true []) None).

Definition Use_msg : string :=
  "chi: all middlewares must be defined before routes on a mux".

Definition Use (mx : MuxId) (mws : list nat) : M unit :=
  let* m := get_mux mx in
  match handler m with
  | Some _ => panic Use_msg
  | None => set_mux mx (with_middlewares (middlewares m ++ mws) m)
  end.

Definition NotFound (mx : MuxId) (handlerFn : Handler) : M unit :=
  let* m := get_mux mx in
  set_mux mx (with_notFoundHandler (Some handlerFn) m).

Definition NotFoundHandler (mx : MuxId) : M Handler :=
  let* m := get_mux mx in
  match notFoundHandler m with
  | Some h => ret h
  | None => ret HttpNotFound
  end.

Definition buildRouteHandler (mx : MuxId) : M unit :=
  let* m := get_mux mx in
  set_mux mx (with_handler (Some (chain (middlewares m) (RouteHTTP mx))) m).

Definition handle_msg (pattern : string) : string :=
  "chi: routing pattern must begin with '/' in '" +:+ pattern +:+ "'".

Definition handle (mx : MuxId) (method : Z) (pattern : string) (h : Handler)
  : M endpoint :=
  if negb (begins_with_slash pattern) then panic (handle_msg pattern)
  else
    let* m := get_mux mx in
    (if negb (inline m) && is_nil (handler m)
     then buildRouteHandler mx else ret tt) >>>
    let* h' :=
      (if inline m then
         (let* m1 := get_mux mx in
          set_mux mx (with_handler (Some (RouteHTTP mx)) m1)) >>>
         ret (chain (middlewares m) h)
       else ret h) in
    let* t := get_tree (tree m) in
    let '(t', n) := InsertRoute method pattern h' t in
    set_tree (tree m) t' >>> ret n.

Definition Handle (mx : MuxId) (method : Z) (pattern : string) (h : Handler)
  : M unit :=
  handle mx method pattern h >>> ret tt.

Definition Any (mx : MuxId) (pattern : string) (h : Handler) : M unit :=
  handle mx Method.ANY pattern h >>> ret tt.

Definition Get (mx : MuxId) (pattern : string) (h : Handler) : M unit :=
  handle mx Method.GET pattern h >>> ret tt.

Definition Post (mx : MuxId) (pattern : string) (h : Handler) : M unit :=
  handle mx Method.POST pattern h >>> ret tt.

Definition Chain (mx : MuxId) (mws : list nat) : M MuxId :=
  let* m := get_mux mx in
  (if negb (inline m) && is_nil (handler m)
   then buildRouteHandler mx else ret tt) >>>
  let mws' := (if inline m then middlewares m else []) ++ mws in
  alloc_mux (MkMux (tree m) mws' true None (MkPool false []) None).

Definition Group (mx : MuxId) (fn : option (MuxId -> M unit)) : M MuxId :=
  let* im := Chain mx [] in
  (match fn with
   | Some f => f im
   | None => ret tt
   end) >>>
  ret im.

Definition Mount_msg (pattern : string) : string :=
  "chi: attempting to Mount() a handler on an existing path, '"
  +:+ pattern +:+ "'".

Definition Mount (mx : MuxId) (pattern : string) (h : Handler) : M unit :=
  let* m := get_mux mx in
  let* t := get_tree (tree m) in
  if findPattern t (pattern +:+ "*") || findPattern t (pattern +:+ "/*")
  then panic (Mount_msg pattern)
  else
    let subr := as_Mux h in
    (match subr with
     | Some s =>
         let* sm := get_mux s in
         if is_nil (notFoundHandler sm) then
           match notFoundHandler m with
           | Some nf => NotFound s nf
           | None => ret tt
           end
         else ret tt
     | None => ret tt
     end) >>>
    let subHandler := SubHandler h in
    let* pattern' :=
      (if lacks_trailing_slash pattern then
         handle mx (Z.lor Method.ANY Method._STUB) pattern subHandler >>>
         (let* nf := NotFoundHandler mx in
          handle mx (Z.lor Method.ANY Method._STUB) (pattern +:+ "/") nf) >>>
         ret (pattern +:+ "/")
       else ret pattern) in
    let method :=
      match subr with
      | Some _ => Z.lor Method.ANY Method._STUB
      | None => Method.ANY
      end in
    let* n := handle mx method (pattern' +:+ "*") subHandler in
    match subr with
    | Some s =>
        let* t' := get_tree (tree m) in
        set_tree (tree m) (set_subrouter n s t')
    | None => ret tt
    end.

(** [NewRouter] is [NewMux] under its interface name. *)
Definition Route (mx : MuxId) (pattern : string) (fn : option (MuxId -> M unit))
  : M MuxId :=
  let* subRouter := NewMux in
  (match fn with
   | Some f => f subRouter
   | None => ret tt
   end) >>>
  Mount mx pattern (MuxHandler subRouter) >>>
  ret subRouter.

(** ** The other registration methods *)

Definition HandleFunc (mx : MuxId) (method : Z) (pattern : string)
  (handlerFn : Handler) : M unit :=
  handle mx method pattern handlerFn >>> ret tt.

Definition Connect (mx : MuxId) (pattern : string) (h : Handler) : M unit :=
  handle mx Method.CONNECT pattern h >>> ret tt.

Definition Delete (mx : MuxId) (pattern : string) (h : Handler) : M unit :=
  handle mx Method.DELETE pattern h >>> ret tt.

Definition Head (mx : MuxId) (pattern : string) (h : Handler) : M unit :=
  handle mx Method.HEAD pattern h >>> ret tt.

Definition Options (mx : MuxId) (pattern : string) (h : Handler) : M unit :=
  handle mx Method.OPTIONS pattern h >>> ret tt.

Definition Patch (mx : MuxId) (pattern : string) (h : Handler) : M unit :=
  handle mx Method.PATCH pattern h >>> ret tt.

Definition Put (mx : MuxId) (pattern : string) (h : Handler) : M unit :=
  handle mx Method.PUT pattern h >>> ret tt.

Definition Trace (mx : MuxId) (pattern : string) (h : Handler) : M unit :=
  handle mx Method.TRACE pattern h >>> ret tt.

Definition Middlewares (mx : MuxId) : M (list nat) :=
  let* m := get_mux mx in
  ret (middlewares m).

(** [FileServer]: the closure handed to [Get] only calls the file
    responder that net/http builds from [root]; the responder is the
    caller's side, known by the name [root]. *)
Definition FileServer (mx : MuxId) (path : string) (root : nat) : M unit :=
  Get mx (path +:+ "*") (UserHandler root).

(** ** Dispatch *)

(** [mx.pool.Get()]: a free context if there is one, else what [New]
    makes, else nil. *)
Definition pool_Get (mx : MuxId) : M (option CtxId) :=
  let* m := get_mux mx in
  match pool_free (pool m) with
  | c :: rest => set_mux mx (with_pool_free rest m) >>> ret (Some c)
  | [] =>
      if pool_New (pool m)
      then (let* c := alloc_context NewRouteContext in ret (Some c))
      else ret None
  end.

Definition pool_Put (mx : MuxId) (c : CtxId) : M unit :=
  let* m := get_mux mx in
  set_mux mx (with_pool_free (c :: pool_free (pool m)) m).

Definition not_a_Context : string :=
  "interface conversion: interface is nil, not *chi.Context".

Definition ServeHTTP_msg : string :=
  "chi: attempting to route to a mux with no handlers.".

(** [ServeHTTP]; [call] runs a handler, see [serve]. *)
Definition ServeHTTP (call : Handler -> Request -> M unit)
  (mx : MuxId) (r : Request) : M unit :=
  let* m := get_mux mx in
  match handler m with
  | None => panic ServeHTTP_msg
  | Some h =>
      match routing (r_Context r) with
      | Some _ => call h r
      | None =>
          let* got := pool_Get mx in
          match got with
          | None => panic not_a_Context
          | Some rctx =>
              (let* x := get_context rctx in set_context rctx (reset x)) >>>
              (let* x := get_context rctx in
               set_context rctx
                 (MkContext (Some (r_Context r)) (RoutePath x) (Params x))) >>>
              (let* m' := get_mux mx in
               match handler m' with
               | Some h' => call h' (WithContext r rctx)
               | None => panic nil_dereference
               end) >>>
              pool_Put mx rctx
          end
      end
  end.

(** [w.WriteHeader(405); w.Write(nil)] *)
Definition methodNotAllowedHandler : M unit :=
  modify (emit [WriteHeader 405; Write EmptyString]).

(** [mx.tree.FindRoute(rctx, routePath)]: the store reads and writes the
    parameters of the routing context. *)
Definition tree_FindRoute (t : TreeId) (rctx : CtxId) (routePath : string)
  : M (option (gmap Z Handler)) :=
  let* n := get_tree t in
  let* x := get_context rctx in
  let '(hs, ps) := FindRoute n (Params x) routePath in
  set_context rctx (MkContext (parent x) (RoutePath x) ps) >>>
  modify (emit [Find t routePath]) >>>
  ret hs.

(** The effective path of [routeHTTP]. *)
Definition routePath_of (x : Context) (r : Request) : string :=
  if String.eqb (RoutePath x) EmptyString then r_Path r else RoutePath x.

Definition routeHTTP (call : Handler -> Request -> M unit)
  (mx : MuxId) (r : Request) : M unit :=
  match routing (r_Context r) with
  | None => panic not_a_Context
  | Some rctx =>
      let* x := get_context rctx in
      let routePath := routePath_of x r in
      match Method.MethodMap (r_Method r) with
      | None => methodNotAllowedHandler
      | Some method =>
          let* m := get_mux mx in
          let* hs := tree_FindRoute (tree m) rctx routePath in
          match hs with
          | None => let* nf := NotFoundHandler mx in call nf r
          | Some hs =>
              match hs !! method with
              | None => methodNotAllowedHandler
              | Some h => call h r
              end
          end
      end
  end.

(** The closure [subHandler] of [Mount]. *)
Definition subHandler (call : Handler -> Request -> M unit)
  (next : Handler) (r : Request) : M unit :=
  match routing (r_Context r) with
  | None => panic nil_dereference
  | Some rctx =>
      let* x := get_context rctx in
      let '(rest, ps) := Params_Del "*" (Params x) in
      set_context rctx (MkContext (parent x) ("/" +:+ rest) ps) >>>
      call next r
  end.

(** [http.NotFound]: status 404 and the standard body. *)
Definition http_NotFound : M unit :=
  modify (emit [WriteHeader 404; Write "404 page not found"]).

(** ** Vocabulary of the properties *)

(** The response of [methodNotAllowedHandler]. *)
Definition not_allowed : list Event := [WriteHeader 405; Write EmptyString].

(** The state after the store was queried with [path] on behalf of the
    routing context [rctx] and left the parameters [ps] in it. *)
Definition queried (t : TreeId) (rctx : CtxId) (x : Context)
  (ps : gmap string string) (path : string) (w : World) : World :=
  emit [Find t path]
       (with_contexts (insert rctx (MkContext (parent x) (RoutePath x) ps)) w).

(** The effective not-found handler of a router. *)
Definition effective_not_found (m : Mux) : Handler :=
  default HttpNotFound (notFoundHandler m).

(** The routing context after [reset] and the link to the scope of the
    request. *)
Definition outermost_context (r : Request) : Context :=
  MkContext (Some (r_Context r)) EmptyString ∅.

(** The routing context as the closure of [Mount] leaves it. *)
Definition forwarded (x : Context) : Context :=
  MkContext (parent x) ("/" +:+ default EmptyString (Params x !! "*"))
            (delete "*" (Params x)).

(** The composed handler of a router is built. *)
Definition built (w : World) (mx : MuxId) : Prop :=
  exists m h, muxes w !! mx = Some m /\ handler m = Some h.

(** The handler [handle] stores for [h]: an inline router wraps it in its
    own middlewares. *)
Definition registered_handler (m : Mux) (h : Handler) : Handler :=
  if inline m then chain (middlewares m) h else h.

(** The router record after [handle]: the handler is built or assigned. *)
Definition sealed (mx : MuxId) (m : Mux) : Mux :=
  if inline m then with_handler (Some (RouteHTTP mx)) m
  else
    match handler m with
    | Some _ => m
    | None => with_handler (Some (chain (middlewares m) (RouteHTTP mx))) m
    end.

(** Two records of one router that differ at most in the handler and
    the pool. *)
Definition same_routing (m m' : Mux) : Prop :=
  tree m' = tree m /\ inline m' = inline m /\
  middlewares m' = middlewares m /\ notFoundHandler m' = notFoundHandler m.

(** The tree of the receiver after [Mount]: the two placeholders when the
    pattern has no trailing slash, then the wildcard route, marked with
    the sub-router when the handler is a router. *)
Definition mounted_tree (m : Mux) (pattern : string) (h : Handler) (t : node)
  : node :=
  let stub := Z.lor Method.ANY Method._STUB in
  let wrapper := registered_handler m (SubHandler h) in
  let t2 :=
    if lacks_trailing_slash pattern then
      fst (InsertRoute stub (pattern +:+ "/")
             (registered_handler m (effective_not_found m))
             (fst (InsertRoute stub pattern wrapper t)))
    else t in
  let pattern' :=
    if lacks_trailing_slash pattern then pattern +:+ "/" else pattern in
  let method :=
    match as_Mux h with
    | Some _ => stub
    | None => Method.ANY
    end in
  let last := InsertRoute method (pattern' +:+ "*") wrapper t2 in
  match as_Mux h with
  | Some s => set_subrouter (snd last) s (fst last)
  | None => fst last
  end.

(** The state [handle] leaves on a live router and a rooted pattern. *)
Definition registered (w : World) (mx : MuxId) (m : Mux) (t : node)
  (method : Z) (pattern : string) (h : Handler) : World :=
  MkWorld (<[mx := sealed mx m]> (muxes w))
          (<[tree m := fst (InsertRoute method pattern (registered_handler m h) t)]>
             (trees w))
          (contexts w) (response w).

(** The caller's code: a handler may do anything to the state, run other
    handlers and panic; a middleware furthermore decides what to do with
    the handler it wraps. *)
Variable user_handler :
  nat -> (Handler -> Request -> M unit) -> Request -> M unit.
Variable middleware :
  nat -> (Handler -> Request -> M unit) ->
  (Request -> M unit) -> Request -> M unit.

(** [h.ServeHTTP(w, r)]; each nested call uses one unit of fuel. *)
Fixpoint serve (fuel : nat) (h : Handler) (r : Request) : M unit :=
  match fuel with
  | O => fun _ => OutOfFuel
  | S n =>
      match h with
      | UserHandler name => user_handler name (serve n) r
      | HttpNotFound => http_NotFound
      | RouteHTTP mx => routeHTTP (serve n) mx r
      | MuxHandler mx => ServeHTTP (serve n) mx r
      | SubHandler next => subHandler (serve n) next r
      | Chained mws e =>
          foldr (fun mw k => middleware mw (serve n) k) (serve n e) mws r
      end
  end.

End Router.

(** ** A reference pattern store *)

(** Modelled from the spec: a store that keeps its routes in a list, used
    to run the router on concrete requests.  A pattern is matched byte by
    byte and a trailing [*] captures the rest of the path under the key
    [*]; an exact match is preferred to a wildcard match, and among
    wildcard matches the longest pattern wins.  Section 6: inserting at a
    stored pattern merges the method sets, and [_STUB] is no key of the
    method-to-handler mapping. *)
Module ListStore.

Record Route : Type := MkRoute {
  route_pattern : string;
  route_methods : Z;
  route_handlers : gmap Z Handler;
  route_subrouter : option MuxId
}.

Definition add_handlers (method : Z) (h : Handler) (hs : gmap Z Handler)
  : gmap Z Handler :=
  foldr (fun flag acc =>
           if Method.Contains method flag then <[flag := h]> acc else acc)
        hs Method.real.

Fixpoint insert_route (method : Z) (pattern : string) (h : Handler)
  (t : list Route) : list Route :=
  match t with
  | [] => [MkRoute pattern method (add_handlers method h ∅) None]
  | e :: rest =>
      if String.eqb (route_pattern e) pattern
      then MkRoute pattern (Z.lor (route_methods e) method)
                   (add_handlers method h (route_handlers e))
                   (route_subrouter e) :: rest
      else e :: insert_route method pattern h rest
  end.

Definition mark_subrouter (pattern : string) (s : MuxId) (t : list Route)
  : list Route :=
  map (fun e =>
         if String.eqb (route_pattern e) pattern
         then MkRoute (route_pattern e) (route_methods e) (route_handlers e)
                      (Some s)
         else e) t.

Definition has_pattern (t : list Route) (pattern : string) : bool :=
  existsb (fun e => String.eqb (route_pattern e) pattern) t.

(** [Some None] for an exact match, [Some (Some rest)] for a wildcard
    match that captured [rest]. *)
Fixpoint match_pattern (pattern path : string) : option (option string) :=
  match pattern with
  | EmptyString =>
      match path with
      | EmptyString => Some None
      | String _ _ => None
      end
  | String c pattern' =>
      if Ascii.eqb c "*" && String.eqb pattern' EmptyString
      then Some (Some path)
      else
        match path with
        | EmptyString => None
        | String d path' =>
            if Ascii.eqb c d then match_pattern pattern' path' else None
        end
  end.

Definition find_exact (t : list Route) (path : string) : option Route :=
  List.find (fun e => bool_decide (match_pattern (route_pattern e) path = Some None)) t.

(** The wildcard match with the longest pattern, the earliest among
    equals. *)
Fixpoint find_wildcard (t : list Route) (path : string)
  : option (Route * string) :=
  match t with
  | [] => None
  | e :: rest =>
      let other := find_wildcard rest path in
      match match_pattern (route_pattern e) path with
      | Some (Some captured) =>
          match other with
          | Some (e', captured') =>
              if (String.length (route_pattern e) <? String.length (route_pattern e'))%nat
              then other else Some (e, captured)
          | None => Some (e, captured)
          end
      | _ => other
      end
  end.

Definition find_route (t : list Route) (ps : gmap string string) (path : string)
  : option (gmap Z Handler) * gmap string string :=
  match find_exact t path with
  | Some e => (Some (route_handlers e), ps)
  | None =>
      match find_wildcard t path with
      | Some (e, captured) => (Some (route_handlers e), <["*" := captured]> ps)
      | None => (None, ps)
      end
  end.

#[global] Instance nodes : NodeType := list Route.

#[global] Instance store : PatternStore := {|
  endpoint := string;
  empty_node := [];
  InsertRoute := fun method pattern h t =>
                   (insert_route method pattern h t, pattern);
  set_subrouter := mark_subrouter;
  FindRoute := find_route;
  findPattern := has_pattern
|}.

End ListStore.

(** ** Example routers *)

Module Example.

Abbreviation W := (@World ListStore.nodes) (only parsing).

Definition empty_world : W := MkWorld ∅ ∅ ∅ [].

(** A handler that answers 200 with its name; handler 9 panics. *)
Definition user (name : nat)
  (call : Handler -> Request -> @M ListStore.nodes unit) (r : Request)
  : @M ListStore.nodes unit :=
  if Nat.eqb name 9 then panic "boom"
  else modify (emit [WriteHeader 200; Write (pretty name)]).

(** A middleware that passes the request on. *)
Definition pass (name : nat)
  (call : Handler -> Request -> @M ListStore.nodes unit)
  (next : Request -> @M ListStore.nodes unit) (r : Request)
  : @M ListStore.nodes unit :=
  next r.

Definition run (m : @M ListStore.nodes unit) (w : W) : W :=
  match m w with
  | Return _ w' => w'
  | Panicked _ w' => w'
  | OutOfFuel => w
  end.

Definition request (method path : string) : Request :=
  MkRequest method path (MkScope 0 None).

(** [r := NewMux(); r.Get("/hello", h0); admin := NewMux();
    admin.Get("/dashboard", h1); r.Mount("/admin", admin)]:
    router 0 with router 1 mounted at [/admin]. *)
Definition mounted : W :=
  run (bind NewMux (fun mx =>
       bind (Get mx "/hello" (UserHandler 0)) (fun _ =>
       bind NewMux (fun admin =>
       bind (Get admin "/dashboard" (UserHandler 1)) (fun _ =>
       Mount mx "/admin" (MuxHandler admin))))))
      empty_world.

(** [r := NewMux(); api := NewMux(); r.Mount("/api", api)]: the mounted
    router 1 has no route. *)
Definition mounted_empty : W :=
  run (bind NewMux (fun mx =>
       bind NewMux (fun api =>
       Mount mx "/api" (MuxHandler api))))
      empty_world.

(** [r := NewMux()] *)
Definition fresh_router : W :=
  run (bind NewMux (fun _ => ret tt)) empty_world.


(** The routing context of an enclosing dispatch whose wildcard captured
    [dashboard]. *)
Definition captured : Context :=
  MkContext (Some (MkScope 0 None)) EmptyString
            {["*" := "dashboard"; "id" := "42"]}.

(** [r := NewMux(); r.Get("/hello", h0)], with the routing context 0 of a
    dispatch in flight. *)
Definition in_flight : W :=
  with_contexts (insert 0 captured)
    (run (bind NewMux (fun mx => Get mx "/hello" (UserHandler 0)))
         empty_world).

(** The router [mounted] with the same routing context in flight. *)
Definition mounted_in_flight : W :=
  with_contexts (insert 0 captured) mounted.

(** The records of [in_flight] and [mounted]. *)
Definition router0 : Mux :=
  MkMux 0 [] false (Some (RouteHTTP 0)) (MkPool true []) None.

Definition router1 : Mux :=
  MkMux 1 [] false (Some (RouteHTTP 1)) (MkPool true []) None.

Definition unbuilt_router : Mux :=
  MkMux 0 [] false None (MkPool true []) None.

Definition hello_tree : list ListStore.Route :=
  [ListStore.MkRoute "/hello" Method.GET {[Method.GET := UserHandler 0]} None].

Definition dashboard_tree : list ListStore.Route :=
  [ListStore.MkRoute "/dashboard" Method.GET {[Method.GET := UserHandler 1]} None].

Definition nested_request (method path : string) : Request :=
  MkRequest method path (MkScope 0 (Some 0)).

(** [r := NewMux(); r.NotFound(h7); api := NewMux()]: router 0 has its
    own not-found handler, router 1 has none; nothing is registered. *)
Definition custom_404 : W :=
  run (bind NewMux (fun mx =>
       bind (NotFound mx (UserHandler 7)) (fun _ =>
       bind NewMux (fun _ => ret tt))))
      empty_world.

Definition router0_custom_404 : Mux :=
  MkMux 0 [] false None (MkPool true []) (Some (UserHandler 7)).

Definition router1_unbuilt : Mux :=
  MkMux 1 [] false None (MkPool true []) None.

End Example.

(** * Properties *)

Section RouterProperties.
Context {N : NodeType} {store : PatternStore}.
Variable user_handler :
  nat -> (Handler -> Request -> M unit) -> Request -> M unit.
Variable middleware :
  nat -> (Handler -> Request -> M unit) ->
  (Request -> M unit) -> Request -> M unit.

Local Abbreviation run_handler := (serve user_handler middleware).

(** [Use] on a router whose handler is unbuilt appends. *)
Lemma Use_unbuilt (w : World) (mx : MuxId) (m : Mux) (mws : list nat) :
  muxes w !! mx = Some m ->
  handler m = None ->
  Use mx mws w =
  Return tt (with_muxes (insert mx (with_middlewares (middlewares m ++ mws) m)) w).
Proof.
  intros Hm Hh. unfold Use, bind, get_mux. rewrite Hm, Hh. reflexivity.
Qed.

Lemma Use_built (w : World) (mx : MuxId) (m : Mux) (h : Handler) (mws : list nat) :
  muxes w !! mx = Some m ->
  handler m = Some h ->
  Use mx mws w = Panicked Use_msg w.
Proof.
  intros Hm Hh. unfold Use, bind, get_mux. rewrite Hm, Hh. reflexivity.
Qed.

Lemma routeHTTP_unknown_method call (mx : MuxId) (r : Request) (w : World)
  (rctx : CtxId) (x : Context) :
  routing (r_Context r) = Some rctx ->
  contexts w !! rctx = Some x ->
  Method.MethodMap (r_Method r) = None ->
  routeHTTP call mx r w = Return tt (emit not_allowed w).
Proof.
  intros Hr Hx Hm. unfold routeHTTP, bind, get_context.
  rewrite Hr, Hx, Hm. reflexivity.
Qed.

Lemma routeHTTP_known_method call (mx : MuxId) (r : Request) (w : World)
  (rctx : CtxId) (x : Context) (method : Z) (m : Mux) (n : node)
  (found : option (gmap Z Handler)) (ps : gmap string string) :
  routing (r_Context r) = Some rctx ->
  contexts w !! rctx = Some x ->
  Method.MethodMap (r_Method r) = Some method ->
  muxes w !! mx = Some m ->
  trees w !! tree m = Some n ->
  FindRoute n (Params x) (routePath_of x r) = (found, ps) ->
  routeHTTP call mx r w =
  let w' := queried (tree m) rctx x ps (routePath_of x r) w in
  match found with
  | None => call (effective_not_found m) r w'
  | Some hs =>
      match hs !! method with
      | None => Return tt (emit not_allowed w')
      | Some h => call h r w'
      end
  end.
Proof.
  intros Hr Hx Hmeth Hm Hn Hfind.
  unfold routeHTTP, bind, get_context. rewrite Hr, Hx, Hmeth.
  unfold get_mux. rewrite Hm.
  unfold tree_FindRoute, bind, get_tree, get_context. rewrite Hn, Hx, Hfind.
  cbn. destruct found as [hs|].
  - destruct (hs !! method); reflexivity.
  - unfold NotFoundHandler, bind, get_mux. cbn. rewrite Hm.
    unfold effective_not_found. destruct (notFoundHandler m); reflexivity.
Qed.

(** C1. [routeHTTP] settles a dispatched request in a fixed order.  An
    unknown method string is answered 405 and leaves no query of the
    pattern store behind.  A known method queries the store with the
    effective path; without a match the effective not-found handler runs
    (the override of [NotFound], else [http.NotFound], which answers 404);
    with a match whose mapping lacks the method the answer is 405 and no
    handler runs; otherwise the matched handler runs. *)
Theorem routeHTTP_resolution_order (fuel : nat) (mx : MuxId) (r : Request)
  (w : World) (rctx : CtxId) (x : Context) :
  routing (r_Context r) = Some rctx ->
  contexts w !! rctx = Some x ->
  (Method.MethodMap (r_Method r) = None ->
   run_handler (S fuel) (RouteHTTP mx) r w = Return tt (emit not_allowed w))
  /\
  (forall method m n found ps,
     Method.MethodMap (r_Method r) = Some method ->
     muxes w !! mx = Some m ->
     trees w !! tree m = Some n ->
     FindRoute n (Params x) (routePath_of x r) = (found, ps) ->
     let w' := queried (tree m) rctx x ps (routePath_of x r) w in
     match found with
     | None =>
         run_handler (S fuel) (RouteHTTP mx) r w =
         run_handler fuel (effective_not_found m) r w'
         /\ (notFoundHandler m = None ->
             run_handler (S fuel) (RouteHTTP mx) r w =
             run_handler fuel HttpNotFound r w')
     | Some hs =>
         match hs !! method with
         | None =>
             run_handler (S fuel) (RouteHTTP mx) r w =
             Return tt (emit not_allowed w')
         | Some h =>
             run_handler (S fuel) (RouteHTTP mx) r w = run_handler fuel h r w'
         end
     end)
  /\
  (forall w0, run_handler (S fuel) HttpNotFound r w0 =
              Return tt (emit [WriteHeader 404; Write "404 page not found"] w0)).
Proof.
  intros Hr Hx. split; [|split].
  - intros Hm. cbn [serve].
    eapply routeHTTP_unknown_method; eassumption.
  - intros method m n found ps Hmeth Hm Hn Hfind w'.
    pose proof (routeHTTP_known_method (run_handler fuel) mx r w rctx x
                  method m n found ps Hr Hx Hmeth Hm Hn Hfind) as E.
    cbn [serve]. cbv zeta in E. fold w' in E.
    destruct found as [hs|].
    + destruct (hs !! method); exact E.
    + split; [exact E|]. intros Hnf. rewrite E.
      unfold effective_not_found. rewrite Hnf. reflexivity.
  - intros w0. reflexivity.
Qed.

(** What [pool_Get] leaves of the router. *)
Lemma pool_Get_mux (mx : MuxId) (w w1 : World) (m : Mux) (got : option CtxId) :
  muxes w !! mx = Some m ->
  pool_Get mx w = Return got w1 ->
  exists m1, muxes w1 !! mx = Some m1 /\ handler m1 = handler m /\
             tree m1 = tree m /\ response w1 = response w.
Proof.
  intros Hm. unfold pool_Get, bind, get_mux. rewrite Hm.
  destruct (pool_free (pool m)) as [|c rest].
  - destruct (pool_New (pool m)); cbn; intros E; inversion E; subst; eauto.
  - cbn. intros E. inversion E; subst. cbn.
    rewrite lookup_insert_eq. eauto.
Qed.

Lemma ServeHTTP_no_handler call (mx : MuxId) (r : Request) (w : World) (m : Mux) :
  muxes w !! mx = Some m ->
  handler m = None ->
  ServeHTTP call mx r w = Panicked ServeHTTP_msg w.
Proof.
  intros Hm Hh. unfold ServeHTTP, bind, get_mux. rewrite Hm, Hh. reflexivity.
Qed.

Lemma ServeHTTP_nested call (mx : MuxId) (r : Request) (w : World) (m : Mux)
  (h : Handler) (rctx : CtxId) :
  muxes w !! mx = Some m ->
  handler m = Some h ->
  routing (r_Context r) = Some rctx ->
  ServeHTTP call mx r w = call h r w.
Proof.
  intros Hm Hh Hr. unfold ServeHTTP, bind, get_mux. rewrite Hm, Hh, Hr.
  reflexivity.
Qed.

Lemma ServeHTTP_outermost call (mx : MuxId) (r : Request) (w w1 : World)
  (m : Mux) (h : Handler) (rctx : CtxId) (x : Context) :
  muxes w !! mx = Some m ->
  handler m = Some h ->
  routing (r_Context r) = None ->
  pool_Get mx w = Return (Some rctx) w1 ->
  contexts w1 !! rctx = Some x ->
  ServeHTTP call mx r w =
  match call h (WithContext r rctx)
             (with_contexts (insert rctx (outermost_context r)) w1) with
  | Return _ w2 => pool_Put mx rctx w2
  | Panicked msg w2 => Panicked msg w2
  | OutOfFuel => OutOfFuel
  end.
Proof.
  intros Hm Hh Hr Hget Hx.
  destruct (pool_Get_mux mx w w1 m _ Hm Hget) as (m1 & Hm1 & Hh1 & _ & _).
  unfold ServeHTTP, bind at 1. unfold get_mux at 1. rewrite Hm, Hh, Hr.
  unfold bind at 1. rewrite Hget.
  unfold bind, get_context, set_context, modify. rewrite Hx. cbn.
  rewrite lookup_insert_eq. unfold with_contexts, outermost_context. cbn.
  rewrite insert_insert_eq.
  unfold get_mux. cbn. rewrite Hm1, Hh1, Hh. reflexivity.
Qed.

(** C2. A [ServeHTTP] whose request already carries a routing context
    runs the composed handler on the same request and the same state: no
    context is taken from the pool, reset or put back.  An outermost call
    takes a context from the pool, resets it, links it to the scope of
    the request, and runs the composed handler on the request that
    carries it. *)
Theorem ServeHTTP_nested_reuses_context (fuel : nat) (mx : MuxId)
  (r : Request) (w : World) (m : Mux) (h : Handler) :
  muxes w !! mx = Some m ->
  handler m = Some h ->
  (forall rctx, routing (r_Context r) = Some rctx ->
     run_handler (S fuel) (MuxHandler mx) r w = run_handler fuel h r w)
  /\
  (forall rctx w1 x,
     routing (r_Context r) = None ->
     pool_Get mx w = Return (Some rctx) w1 ->
     contexts w1 !! rctx = Some x ->
     run_handler (S fuel) (MuxHandler mx) r w =
     match run_handler fuel h (WithContext r rctx)
             (with_contexts (insert rctx (outermost_context r)) w1) with
     | Return _ w2 => pool_Put mx rctx w2
     | Panicked msg w2 => Panicked msg w2
     | OutOfFuel => OutOfFuel
     end).
Proof.
  intros Hm Hh. split.
  - intros rctx Hr. cbn [serve]. eapply ServeHTTP_nested; eassumption.
  - intros rctx w1 x Hr Hget Hx. cbn [serve].
    eapply ServeHTTP_outermost; eassumption.
Qed.

(** C3, amended. On an outermost [ServeHTTP] the context taken from the
    pool is put back whenever the composed handler returns, whatever it
    wrote to the response.  When the handler panics the panic goes through
    [ServeHTTP] and the state is left as the handler left it: the context
    is not put back. *)
Theorem ServeHTTP_releases_on_return (fuel : nat) (mx : MuxId) (r : Request)
  (w w1 : World) (m : Mux) (h : Handler) (rctx : CtxId) (x : Context) :
  muxes w !! mx = Some m ->
  handler m = Some h ->
  routing (r_Context r) = None ->
  pool_Get mx w = Return (Some rctx) w1 ->
  contexts w1 !! rctx = Some x ->
  let entry := with_contexts (insert rctx (outermost_context r)) w1 in
  (forall w2 m2,
     run_handler fuel h (WithContext r rctx) entry = Return tt w2 ->
     muxes w2 !! mx = Some m2 ->
     run_handler (S fuel) (MuxHandler mx) r w =
     Return tt (with_muxes
                  (insert mx (with_pool_free (rctx :: pool_free (pool m2)) m2))
                  w2))
  /\
  (forall msg w2,
     run_handler fuel h (WithContext r rctx) entry = Panicked msg w2 ->
     run_handler (S fuel) (MuxHandler mx) r w = Panicked msg w2).
Proof.
  intros Hm Hh Hr Hget Hx entry.
  pose proof (ServeHTTP_outermost (run_handler fuel) mx r w w1 m h rctx x
                Hm Hh Hr Hget Hx) as E.
  fold entry in E. split.
  - intros w2 m2 Hret Hm2. cbn [serve]. rewrite E, Hret.
    unfold pool_Put, bind, get_mux. rewrite Hm2. reflexivity.
  - intros msg w2 Hpanic. cbn [serve]. rewrite E, Hpanic. reflexivity.
Qed.

Lemma subHandler_forwards call (next : Handler) (r : Request) (w : World)
  (rctx : CtxId) (x : Context) :
  routing (r_Context r) = Some rctx ->
  contexts w !! rctx = Some x ->
  subHandler call next r w =
  call next r (with_contexts (insert rctx (forwarded x)) w).
Proof.
  intros Hr Hx. unfold subHandler, bind, get_context. rewrite Hr, Hx.
  reflexivity.
Qed.

Lemma routePath_of_override (x : Context) (r : Request) :
  RoutePath x <> EmptyString -> routePath_of x r = RoutePath x.
Proof.
  intros Hne. unfold routePath_of.
  destruct (String.eqb_spec (RoutePath x) EmptyString); [contradiction|reflexivity].
Qed.

Lemma routePath_of_real (x : Context) (r : Request) :
  RoutePath x = EmptyString -> routePath_of x r = r_Path r.
Proof. intros E. unfold routePath_of. rewrite E. reflexivity. Qed.

(** C5. The closure of [Mount] sets the override path of the routing
    context to a slash followed by what the wildcard captured, then calls
    the mounted handler.  [routeHTTP] takes the override path whenever it
    is not empty, and the one set here never is: a mounted router asks its
    store for the captured suffix, whatever the real path of the request
    is. *)
Theorem Mount_forwards_suffix (fuel : nat) (next : Handler) (r : Request)
  (w : World) (rctx : CtxId) (x : Context) :
  routing (r_Context r) = Some rctx ->
  contexts w !! rctx = Some x ->
  let suffix := "/" +:+ default EmptyString (Params x !! "*") in
  let w' := with_contexts (insert rctx (forwarded x)) w in
  run_handler (S fuel) (SubHandler next) r w = run_handler fuel next r w'
  /\ RoutePath (forwarded x) = suffix
  /\ (forall x0, RoutePath x0 <> EmptyString -> routePath_of x0 r = RoutePath x0)
  /\ (forall x0, RoutePath x0 = EmptyString -> routePath_of x0 r = r_Path r)
  /\ routePath_of (forwarded x) r = suffix
  /\ (forall sub sm method n found ps,
        muxes w !! sub = Some sm ->
        handler sm = Some (RouteHTTP sub) ->
        Method.MethodMap (r_Method r) = Some method ->
        trees w !! tree sm = Some n ->
        FindRoute n (delete "*" (Params x)) suffix = (found, ps) ->
        let w'' := queried (tree sm) rctx (forwarded x) ps suffix w' in
        run_handler (S (S (S fuel))) (SubHandler (MuxHandler sub)) r w =
        match found with
        | None => run_handler fuel (effective_not_found sm) r w''
        | Some hs =>
            match hs !! method with
            | None => Return tt (emit not_allowed w'')
            | Some h => run_handler fuel h r w''
            end
        end).
Proof.
  intros Hr Hx suffix w'.
  assert (Hpath : routePath_of (forwarded x) r = suffix) by reflexivity.
  repeat split.
  - cbn [serve]. eapply subHandler_forwards; eassumption.
  - intros x0. apply routePath_of_override.
  - intros x0. apply routePath_of_real.
  - intros sub sm method n found ps Hsm Hh Hmeth Hn Hfind w''.
    change (run_handler (S (S (S fuel))) (SubHandler (MuxHandler sub)) r w)
      with (subHandler (run_handler (S (S fuel))) (MuxHandler sub) r w).
    rewrite (subHandler_forwards _ _ _ _ rctx x Hr Hx). fold w'.
    change (run_handler (S (S fuel)) (MuxHandler sub) r w')
      with (ServeHTTP (run_handler (S fuel)) sub r w').
    rewrite (ServeHTTP_nested _ sub r w' sm (RouteHTTP sub) rctx Hsm Hh Hr).
    change (run_handler (S fuel) (RouteHTTP sub) r w')
      with (routeHTTP (run_handler fuel) sub r w').
    assert (Hx' : contexts w' !! rctx = Some (forwarded x))
      by (cbn; apply lookup_insert_eq).
    rewrite (routeHTTP_known_method _ sub r w' rctx (forwarded x) method sm n
               found ps Hr Hx' Hmeth Hsm Hn).
    + reflexivity.
    + rewrite Hpath. exact Hfind.
Qed.

(** C10. When the closure of [Mount] sets the override path it removes
    the entry [*] from the parameters of the routing context, so the
    mounted handler does not see what the outer wildcard captured.  The
    closure changes nothing else: every other parameter, the parent link,
    the other routing contexts, the routers, the trees and the response
    are as before. *)
Theorem Mount_wrapper_frame (fuel : nat) (next : Handler) (r : Request)
  (w : World) (rctx : CtxId) (x : Context) :
  routing (r_Context r) = Some rctx ->
  contexts w !! rctx = Some x ->
  exists w' x',
    run_handler (S fuel) (SubHandler next) r w = run_handler fuel next r w'
    /\ muxes w' = muxes w
    /\ trees w' = trees w
    /\ response w' = response w
    /\ (forall c, c <> rctx -> contexts w' !! c = contexts w !! c)
    /\ contexts w' !! rctx = Some x'
    /\ parent x' = parent x
    /\ RoutePath x' = "/" +:+ default EmptyString (Params x !! "*")
    /\ Params x' !! "*" = None
    /\ (forall key, key <> "*" -> Params x' !! key = Params x !! key).
Proof.
  intros Hr Hx.
  exists (with_contexts (insert rctx (forwarded x)) w), (forwarded x).
  repeat split.
  - cbn [serve]. eapply subHandler_forwards; eassumption.
  - intros c Hc. cbn. apply lookup_insert_ne. congruence.
  - cbn. apply lookup_insert_eq.
  - cbn. apply lookup_delete_eq.
  - intros key Hkey. cbn. apply lookup_delete_ne. congruence.
Qed.

Lemma handle_spec (w : World) (mx : MuxId) (m : Mux) (t : node) (method : Z)
  (pattern : string) (h : Handler) :
  muxes w !! mx = Some m ->
  trees w !! tree m = Some t ->
  begins_with_slash pattern = true ->
  handle mx method pattern h w =
  Return (snd (InsertRoute method pattern (registered_handler m h) t))
         (MkWorld (<[mx := sealed mx m]> (muxes w))
                  (<[tree m := fst (InsertRoute method pattern
                                      (registered_handler m h) t)]> (trees w))
                  (contexts w) (response w)).
Proof.
  intros Hm Ht Hp. unfold handle. rewrite Hp. cbn [negb].
  unfold bind at 1. unfold get_mux at 1. rewrite Hm.
  unfold registered_handler, sealed.
  destruct (inline m) eqn:Hin; cbn [negb andb].
  - unfold bind, ret, get_mux, set_mux, modify, get_tree, set_tree. cbn.
    rewrite Hm. cbn. rewrite Ht.
    destruct (InsertRoute method pattern (chain (middlewares m) h) t).
    reflexivity.
  - destruct (handler m) eqn:Hh; cbn [is_nil].
    + unfold bind, ret, get_tree, set_tree, modify. cbn. rewrite Ht.
      destruct (InsertRoute method pattern h t). cbn.
      rewrite (insert_id _ _ _ Hm). reflexivity.
    + unfold buildRouteHandler, bind, ret, get_mux, set_mux, modify,
        get_tree, set_tree. cbn. rewrite Hm. cbn. rewrite Ht.
      destruct (InsertRoute method pattern h t). reflexivity.
Qed.

Lemma handle_inv (w w' : World) (mx : MuxId) (method : Z) (pattern : string)
  (h : Handler) (n : endpoint) :
  handle mx method pattern h w = Return n w' ->
  begins_with_slash pattern = true /\
  exists m t, muxes w !! mx = Some m /\ trees w !! tree m = Some t.
Proof.
  unfold handle. destruct (begins_with_slash pattern); [|discriminate].
  cbn [negb]. intros E. split; [reflexivity|].
  unfold bind at 1 in E. unfold get_mux at 1 in E.
  destruct (muxes w !! mx) as [m|] eqn:Hm; [|discriminate].
  exists m. destruct (trees w !! tree m) as [t|] eqn:Ht; [eauto|].
  exfalso. revert E.
  destruct (inline m); cbn [negb andb];
    [|destruct (handler m); cbn [is_nil]];
    unfold buildRouteHandler, bind, ret, get_mux, set_mux, modify, get_tree;
    cbn; rewrite ?Hm; cbn; rewrite Ht; discriminate.
Qed.

Lemma sealed_handler (mx : MuxId) (m : Mux) : is_Some (handler (sealed mx m)).
Proof.
  unfold sealed. destruct (inline m); [cbn; eauto|].
  destruct (handler m) eqn:Hh; [rewrite Hh|cbn]; eauto.
Qed.

Lemma handle_builds (w w' : World) (mx : MuxId) (method : Z) (pattern : string)
  (h : Handler) (n : endpoint) :
  handle mx method pattern h w = Return n w' -> built w' mx.
Proof.
  intros E. destruct (handle_inv _ _ _ _ _ _ _ E) as (Hp & m & t & Hm & Ht).
  rewrite (handle_spec w mx m t method pattern h Hm Ht Hp) in E.
  inversion E; subst. destruct (sealed_handler mx m) as [h' Hh'].
  exists (sealed mx m), h'. split; [cbn; apply lookup_insert_eq|exact Hh'].
Qed.

(** C7. [Use] appends to the middlewares of a router whose composed
    handler is unbuilt and panics exactly when the handler is built.  The
    handler is built once [handle] has registered a route, on an inline
    router too, and a dispatch that gets past the guard of [ServeHTTP]
    finds it built. *)
Theorem Use_fails_once_built (w : World) (mx : MuxId) (m : Mux) (mws : list nat) :
  muxes w !! mx = Some m ->
  (handler m = None ->
   Use mx mws w =
   Return tt (with_muxes (insert mx (with_middlewares (middlewares m ++ mws) m)) w))
  /\ (Use mx mws w = Panicked Use_msg w <-> is_Some (handler m))
  /\ (forall method pattern h n w',
        handle mx method pattern h w = Return n w' ->
        built w' mx /\ Use mx mws w' = Panicked Use_msg w')
  /\ (forall call r,
        ServeHTTP call mx r w <> Panicked ServeHTTP_msg w ->
        built w mx /\ Use mx mws w = Panicked Use_msg w).
Proof.
  intros Hm. split; [|split; [|split]].
  - intros Hh. apply Use_unbuilt; assumption.
  - split.
    + intros E. destruct (handler m) as [h|] eqn:Hh; [eauto|].
      rewrite (Use_unbuilt w mx m mws Hm Hh) in E. discriminate.
    + intros [h Hh]. eapply Use_built; eassumption.
  - intros method pattern h n w' E.
    pose proof (handle_builds _ _ _ _ _ _ _ E) as Hb. split; [exact Hb|].
    destruct Hb as (m' & h' & Hm' & Hh'). eapply Use_built; eassumption.
  - intros call r Hne. destruct (handler m) as [h|] eqn:Hh.
    + split; [exists m, h; auto|]. eapply Use_built; eassumption.
    + exfalso. apply Hne. eapply ServeHTTP_no_handler; eassumption.
Qed.

Lemma Chain_spec (w : World) (mx : MuxId) (m : Mux) (mws : list nat) :
  muxes w !! mx = Some m ->
  Chain mx mws w =
  Return (fresh (dom (muxes w)))
    (with_muxes
       (fun ms =>
          <[fresh (dom (muxes w)) :=
              MkMux (tree m) ((if inline m then middlewares m else []) ++ mws)
                    true None (MkPool false []) None]>
            (<[mx := if negb (inline m) && is_nil (handler m)
                     then with_handler
                            (Some (chain (middlewares m) (RouteHTTP mx))) m
                     else m]> ms))
       w).
Proof.
  intros Hm. unfold Chain, bind at 1. unfold get_mux at 1. rewrite Hm.
  destruct (negb (inline m) && is_nil (handler m)).
  - unfold buildRouteHandler, bind, get_mux, set_mux, modify, alloc_mux.
    rewrite Hm. cbn.
    rewrite (dom_insert_lookup_L (muxes w) mx _ (mk_is_Some _ _ Hm)).
    reflexivity.
  - unfold bind, ret, alloc_mux. cbn. unfold with_muxes.
    rewrite (insert_id _ _ _ Hm). reflexivity.
Qed.

Lemma fresh_mux_unused (w : World) : muxes w !! fresh (dom (muxes w)) = None.
Proof. apply not_elem_of_dom. apply is_fresh. Qed.

(** C9. [Chain] returns a new inline router: it has the tree pointer of
    the receiver, and its middlewares are those of the receiver when the
    receiver is inline, none otherwise, followed by the ones supplied.  A
    receiver that is not inline and whose handler is unbuilt gets its
    handler built on the way, so a later [Use] on it panics; any other
    receiver is left as it was.  No tree is made and no other router is
    touched. *)
Theorem Chain_makes_inline_router (w : World) (mx : MuxId) (m : Mux)
  (mws : list nat) :
  muxes w !! mx = Some m ->
  exists im w',
    Chain mx mws w = Return im w'
    /\ muxes w !! im = None
    /\ muxes w' !! im =
       Some (MkMux (tree m) ((if inline m then middlewares m else []) ++ mws)
                   true None (MkPool false []) None)
    /\ trees w' = trees w
    /\ (forall other, other <> im -> other <> mx ->
          muxes w' !! other = muxes w !! other)
    /\ (inline m = false -> handler m = None ->
        muxes w' !! mx =
        Some (with_handler (Some (chain (middlewares m) (RouteHTTP mx))) m)
        /\ forall mws', Use mx mws' w' = Panicked Use_msg w')
    /\ (inline m = true \/ is_Some (handler m) -> muxes w' !! mx = Some m).
Proof.
  intros Hm. pose proof (fresh_mux_unused w) as Hfresh.
  set (im := fresh (dom (muxes w))) in *.
  assert (Hne : im <> mx) by (intros ->; congruence).
  eexists im, _. split; [apply Chain_spec; exact Hm|]. fold im.
  split; [exact Hfresh|]. cbn.
  split; [apply lookup_insert_eq|].
  split; [reflexivity|].
  split; [|split].
  - intros other Ho1 Ho2.
    rewrite lookup_insert_ne by congruence.
    rewrite lookup_insert_ne by congruence. reflexivity.
  - intros Hin Hh. rewrite Hin, Hh. cbn.
    assert (E : (<[im:=MkMux (tree m) ([] ++ mws) true None (MkPool false []) None]>
                   (<[mx:=with_handler
                            (Some (chain (middlewares m) (RouteHTTP mx))) m]>
                      (muxes w))) !! mx =
                Some (with_handler
                        (Some (chain (middlewares m) (RouteHTTP mx))) m)).
    { rewrite lookup_insert_ne by congruence. apply lookup_insert_eq. }
    split; [exact E|]. intros mws'.
    eapply Use_built; [exact E|reflexivity].
  - intros Hcase. rewrite lookup_insert_ne by congruence.
    assert (Hb : negb (inline m) && is_nil (handler m) = false).
    { destruct Hcase as [Hin|[h Hh]]; [rewrite Hin|rewrite Hh]; cbn;
        [reflexivity|apply andb_false_r]. }
    rewrite Hb. rewrite lookup_insert_eq. reflexivity.
Qed.



Lemma get_mux_Some (w : World) (mx : MuxId) (m : Mux) :
  muxes w !! mx = Some m -> get_mux mx w = Return m w.
Proof. intros E. unfold get_mux. rewrite E. reflexivity. Qed.

Lemma get_tree_Some (w : World) (t : TreeId) (n : node) :
  trees w !! t = Some n -> get_tree t w = Return n w.
Proof. intros E. unfold get_tree. rewrite E. reflexivity. Qed.

Lemma NotFoundHandler_spec (w : World) (mx : MuxId) (m : Mux) :
  muxes w !! mx = Some m ->
  NotFoundHandler mx w = Return (effective_not_found m) w.
Proof.
  intros E. unfold NotFoundHandler, bind, get_mux, effective_not_found.
  rewrite E. destruct (notFoundHandler m); reflexivity.
Qed.

Lemma same_routing_refl (m : Mux) : same_routing m m.
Proof. repeat split. Qed.

Lemma same_routing_trans (m1 m2 m3 : Mux) :
  same_routing m1 m2 -> same_routing m2 m3 -> same_routing m1 m3.
Proof.
  intros (A1 & A2 & A3 & A4) (B1 & B2 & B3 & B4).
  repeat split; congruence.
Qed.

Lemma same_routing_sealed (mx : MuxId) (m : Mux) : same_routing m (sealed mx m).
Proof.
  unfold sealed. destruct (inline m) eqn:Hin.
  - repeat split; cbn; auto.
  - destruct (handler m); repeat split; cbn; auto.
Qed.

Lemma same_routing_registered (m m' : Mux) (h : Handler) :
  same_routing m m' -> registered_handler m' h = registered_handler m h.
Proof.
  intros (_ & Hin & Hmw & _). unfold registered_handler. rewrite Hin, Hmw.
  reflexivity.
Qed.

Lemma same_routing_not_found (m m' : Mux) :
  same_routing m m' -> effective_not_found m' = effective_not_found m.
Proof.
  intros (_ & _ & _ & Hnf). unfold effective_not_found. rewrite Hnf.
  reflexivity.
Qed.

(** One registration, seen from a router record [m0] that the current
    one agrees with. *)
Lemma handle_step (w : World) (mx : MuxId) (m0 m : Mux) (t : node) (method : Z)
  (pattern : string) (h : Handler) :
  muxes w !! mx = Some m ->
  same_routing m0 m ->
  trees w !! tree m0 = Some t ->
  begins_with_slash pattern = true ->
  exists w' m',
    handle mx method pattern h w =
    Return (snd (InsertRoute method pattern (registered_handler m0 h) t)) w'
    /\ muxes w' !! mx = Some m'
    /\ same_routing m0 m'
    /\ trees w' =
       <[tree m0 := fst (InsertRoute method pattern (registered_handler m0 h) t)]>
         (trees w)
    /\ contexts w' = contexts w
    /\ response w' = response w.
Proof.
  intros Hm Hsame Ht Hp.
  pose proof Hsame as (Htree & _).
  rewrite <- Htree in Ht.
  eexists _, (sealed mx m).
  rewrite (handle_spec w mx m t method pattern h Hm Ht Hp).
  rewrite (same_routing_registered m0 m h Hsame), Htree.
  split; [reflexivity|]. cbn.
  split; [apply lookup_insert_eq|].
  split; [|auto].
  eapply same_routing_trans; [exact Hsame|apply same_routing_sealed].
Qed.

Lemma begins_with_slash_app (p q : string) :
  begins_with_slash p = true -> begins_with_slash (p +:+ q) = true.
Proof. destruct p; [discriminate|]. cbn. auto. Qed.

Lemma append_assoc (p q s : string) : (p +:+ q) +:+ s = p +:+ (q +:+ s).
Proof.
  induction p as [|c p IH]; [reflexivity|].
  change (String c ((p +:+ q) +:+ s) = String c (p +:+ (q +:+ s))).
  f_equal. exact IH.
Qed.

Lemma bind_Return {A B} (m : M A) (k : A -> M B) (w w' : World) (a : A) :
  m w = Return a w' -> bind m k w = k a w'.
Proof. intros E. unfold bind. rewrite E. reflexivity. Qed.

Lemma bind_Panicked {A B} (m : M A) (k : A -> M B) (w w' : World) (msg : string) :
  m w = Panicked msg w' -> bind m k w = Panicked msg w'.
Proof. intros E. unfold bind. rewrite E. reflexivity. Qed.

(** The inheritance of the not-found handler in [Mount] leaves the
    receiver and the trees alone. *)
Lemma Mount_inherits (w : World) (mx : MuxId) (m : Mux) (h : Handler) :
  muxes w !! mx = Some m ->
  (forall s, as_Mux h = Some s -> is_Some (muxes w !! s)) ->
  exists w1,
    match as_Mux h with
    | Some s =>
        bind (get_mux s) (fun sm =>
          if is_nil (notFoundHandler sm) then
            match notFoundHandler m with
            | Some nf => NotFound s nf
            | None => ret tt
            end
          else ret tt)
    | None => ret tt
    end w = Return tt w1
    /\ muxes w1 !! mx = Some m
    /\ trees w1 = trees w
    /\ contexts w1 = contexts w
    /\ response w1 = response w.
Proof.
  intros Hm Hsub. destruct (as_Mux h) as [s|].
  - destruct (Hsub s eq_refl) as [sm Hsm].
    rewrite (bind_Return _ _ _ _ _ (get_mux_Some w s sm Hsm)).
    destruct (notFoundHandler sm) as [|] eqn:Hnil; cbn [is_nil].
    + exists w. auto.
    + destruct (notFoundHandler m) as [nf|] eqn:Hnf.
      * unfold NotFound.
        rewrite (bind_Return _ _ _ _ _ (get_mux_Some w s sm Hsm)).
        eexists. split; [reflexivity|]. cbn.
        split; [|auto].
        rewrite lookup_insert_ne; [exact Hm|].
        intros ->. congruence.
      * exists w. auto.
  - exists w. auto.
Qed.

Lemma Mount_spec (w : World) (mx : MuxId) (m : Mux) (t : node)
  (pattern : string) (h : Handler) :
  muxes w !! mx = Some m ->
  trees w !! tree m = Some t ->
  findPattern t (pattern +:+ "*") || findPattern t (pattern +:+ "/*") = false ->
  (forall s, as_Mux h = Some s -> is_Some (muxes w !! s)) ->
  begins_with_slash pattern = true ->
  exists w' m',
    Mount mx pattern h w = Return tt w'
    /\ muxes w' !! mx = Some m'
    /\ same_routing m m'
    /\ trees w' = <[tree m := mounted_tree m pattern h t]> (trees w)
    /\ contexts w' = contexts w
    /\ response w' = response w.
Proof.
  intros Hm Ht Hconf Hsub Hp.
  destruct (Mount_inherits w mx m h Hm Hsub) as (w1 & E1 & Hm1 & Ht1 & Hc1 & Hr1).
  unfold Mount.
  rewrite (bind_Return _ _ _ _ _ (get_mux_Some w mx m Hm)).
  rewrite (bind_Return _ _ _ _ _ (get_tree_Some w (tree m) t Ht)).
  rewrite Hconf. cbv zeta.
  rewrite (bind_Return _ _ _ _ _ E1).
  assert (Ht1' : trees w1 !! tree m = Some t) by (rewrite Ht1; exact Ht).
  unfold mounted_tree.
  destruct (lacks_trailing_slash pattern).
  - destruct (handle_step w1 mx m m t (Z.lor Method.ANY Method._STUB) pattern
                (SubHandler h) Hm1 (same_routing_refl m) Ht1' Hp)
      as (w2 & m2 & E2 & Hm2 & Hs2 & Ht2 & Hc2 & Hr2).
    set (t2 := fst (InsertRoute (Z.lor Method.ANY Method._STUB) pattern
                      (registered_handler m (SubHandler h)) t)) in *.
    assert (Ht2' : trees w2 !! tree m = Some t2)
      by (rewrite Ht2; apply lookup_insert_eq).
    pose proof (NotFoundHandler_spec w2 mx m2 Hm2) as E3.
    rewrite (same_routing_not_found m m2 Hs2) in E3.
    destruct (handle_step w2 mx m m2 t2 (Z.lor Method.ANY Method._STUB)
                (pattern +:+ "/") (effective_not_found m) Hm2 Hs2 Ht2'
                (begins_with_slash_app _ _ Hp))
      as (w3 & m3 & E4 & Hm3 & Hs3 & Ht3 & Hc3 & Hr3).
    set (t3 := fst (InsertRoute (Z.lor Method.ANY Method._STUB) (pattern +:+ "/")
                      (registered_handler m (effective_not_found m)) t2)) in *.
    assert (Ht3' : trees w3 !! tree m = Some t3)
      by (rewrite Ht3; apply lookup_insert_eq).
    rewrite (bind_Return _ _ w1 w3 (pattern +:+ "/")).
    2:{ rewrite (bind_Return _ _ _ _ _ E2).
        rewrite (bind_Return _ _ w2 w3 (snd (InsertRoute (Z.lor Method.ANY Method._STUB) (pattern +:+ "/") (registered_handler m (effective_not_found m)) t2))).
        - reflexivity.
        - rewrite (bind_Return _ _ _ _ _ E3). exact E4. }
    destruct (handle_step w3 mx m m3 t3
                match as_Mux h with
                | Some _ => Z.lor Method.ANY Method._STUB
                | None => Method.ANY
                end
                ((pattern +:+ "/") +:+ "*") (SubHandler h) Hm3 Hs3 Ht3'
                (begins_with_slash_app _ _ (begins_with_slash_app _ _ Hp)))
      as (w4 & m4 & E5 & Hm4 & Hs4 & Ht4 & Hc4 & Hr4).
    rewrite (bind_Return _ _ _ _ _ E5).
    destruct (as_Mux h) as [s|].
    + assert (Ht4' : trees w4 !! tree m =
                     Some (fst (InsertRoute (Z.lor Method.ANY Method._STUB)
                                  ((pattern +:+ "/") +:+ "*")
                                  (registered_handler m (SubHandler h)) t3)))
        by (rewrite Ht4; apply lookup_insert_eq).
      rewrite (bind_Return _ _ _ _ _ (get_tree_Some w4 (tree m) _ Ht4')).
      eexists _, m4. split; [reflexivity|]. cbn.
      split; [exact Hm4|]. split; [exact Hs4|].
      rewrite Hc4, Hc3, Hc2, Hc1, Hr4, Hr3, Hr2, Hr1, Ht4, Ht3, Ht2, Ht1.
      rewrite !insert_insert_eq. auto.
    + exists w4, m4. split; [reflexivity|].
      split; [exact Hm4|]. split; [exact Hs4|].
      rewrite Hc4, Hc3, Hc2, Hc1, Hr4, Hr3, Hr2, Hr1, Ht4, Ht3, Ht2, Ht1.
      rewrite !insert_insert_eq. auto.
  - rewrite (bind_Return _ _ w1 w1 pattern eq_refl).
    destruct (handle_step w1 mx m m t
                match as_Mux h with
                | Some _ => Z.lor Method.ANY Method._STUB
                | None => Method.ANY
                end
                (pattern +:+ "*") (SubHandler h) Hm1 (same_routing_refl m) Ht1'
                (begins_with_slash_app _ _ Hp))
      as (w4 & m4 & E5 & Hm4 & Hs4 & Ht4 & Hc4 & Hr4).
    rewrite (bind_Return _ _ _ _ _ E5).
    destruct (as_Mux h) as [s|].
    + assert (Ht4' : trees w4 !! tree m =
                     Some (fst (InsertRoute (Z.lor Method.ANY Method._STUB)
                                  (pattern +:+ "*")
                                  (registered_handler m (SubHandler h)) t)))
        by (rewrite Ht4; apply lookup_insert_eq).
      rewrite (bind_Return _ _ _ _ _ (get_tree_Some w4 (tree m) _ Ht4')).
      eexists _, m4. split; [reflexivity|]. cbn.
      split; [exact Hm4|]. split; [exact Hs4|].
      rewrite Hc4, Hc1, Hr4, Hr1, Ht4, Ht1.
      rewrite !insert_insert_eq. auto.
    + exists w4, m4. split; [reflexivity|].
      split; [exact Hm4|]. split; [exact Hs4|].
      rewrite Hc4, Hc1, Hr4, Hr1, Ht4, Ht1. auto.
Qed.

Lemma get_mux_None {A} (k : Mux -> M A) (w : World) (mx : MuxId) :
  muxes w !! mx = None -> bind (get_mux mx) k w = Panicked nil_dereference w.
Proof. intros E. unfold bind, get_mux. rewrite E. reflexivity. Qed.

Lemma get_tree_None {A} (k : node -> M A) (w : World) (t : TreeId) :
  trees w !! t = None -> bind (get_tree t) k w = Panicked nil_dereference w.
Proof. intros E. unfold bind, get_tree. rewrite E. reflexivity. Qed.

Lemma handle_unrooted (w : World) (mx : MuxId) (method : Z) (pattern : string)
  (h : Handler) :
  begins_with_slash pattern = false ->
  handle mx method pattern h w = Panicked (handle_msg pattern) w.
Proof. intros Hp. unfold handle. rewrite Hp. reflexivity. Qed.

Lemma begins_with_slash_app_inv (p q : string) :
  lacks_trailing_slash p = false ->
  begins_with_slash (p +:+ q) = begins_with_slash p.
Proof. destruct p; [discriminate|reflexivity]. Qed.

(** A [Mount] that returns passed the conflict check on a live router
    with a rooted pattern. *)
Lemma Mount_inv (w w' : World) (mx : MuxId) (pattern : string) (h : Handler) :
  Mount mx pattern h w = Return tt w' ->
  exists m t,
    muxes w !! mx = Some m
    /\ trees w !! tree m = Some t
    /\ findPattern t (pattern +:+ "*") || findPattern t (pattern +:+ "/*") = false
    /\ (forall s, as_Mux h = Some s -> is_Some (muxes w !! s))
    /\ begins_with_slash pattern = true.
Proof.
  intros E. unfold Mount in E.
  destruct (muxes w !! mx) as [m|] eqn:Hm;
    [|rewrite (get_mux_None _ w mx Hm) in E; discriminate].
  rewrite (bind_Return _ _ _ _ _ (get_mux_Some w mx m Hm)) in E.
  destruct (trees w !! tree m) as [t|] eqn:Ht;
    [|rewrite (get_tree_None _ w _ Ht) in E; discriminate].
  rewrite (bind_Return _ _ _ _ _ (get_tree_Some w (tree m) t Ht)) in E.
  destruct (findPattern t (pattern +:+ "*") || findPattern t (pattern +:+ "/*"))
    eqn:Hconf; [discriminate|].
  cbv zeta in E.
  assert (Hsub : forall s, as_Mux h = Some s -> is_Some (muxes w !! s)).
  { intros s Hs. destruct (muxes w !! s) as [sm|] eqn:Hsm; [eauto|].
    exfalso. rewrite Hs in E.
    rewrite (bind_Panicked _ _ w w nil_dereference) in E; [discriminate|].
    apply get_mux_None. exact Hsm. }
  exists m, t. repeat split; try assumption.
  destruct (begins_with_slash pattern) eqn:Hp; [reflexivity|]. exfalso.
  destruct (Mount_inherits w mx m h Hm Hsub) as (w1 & E1 & _).
  rewrite (bind_Return _ _ _ _ _ E1) in E.
  destruct (lacks_trailing_slash pattern) eqn:Hl.
  - rewrite (bind_Panicked _ _ w1 w1 (handle_msg pattern)) in E; [discriminate|].
    apply bind_Panicked. apply handle_unrooted. exact Hp.
  - rewrite (bind_Return _ _ w1 w1 pattern eq_refl) in E.
    rewrite (bind_Panicked _ _ w1 w1 (handle_msg (pattern +:+ "*"))) in E;
      [discriminate|].
    apply handle_unrooted. rewrite (begins_with_slash_app_inv _ _ Hl). exact Hp.
Qed.

Lemma mounted_tree_found {contract : PatternStoreContract store}
  (m : Mux) (pattern : string) (h : Handler) (t : node) :
  findPattern (mounted_tree m pattern h t) (pattern +:+ "*")
  || findPattern (mounted_tree m pattern h t) (pattern +:+ "/*") = true.
Proof.
  unfold mounted_tree. cbv zeta.
  destruct (lacks_trailing_slash pattern).
  - apply orb_true_iff. right.
    change (pattern +:+ "/*") with (pattern +:+ ("/" +:+ "*")).
    rewrite <- (append_assoc pattern "/" "*").
    destruct (as_Mux h).
    + rewrite findPattern_set_subrouter. apply findPattern_InsertRoute.
    + apply findPattern_InsertRoute.
  - apply orb_true_iff. left.
    destruct (as_Mux h).
    + rewrite findPattern_set_subrouter. apply findPattern_InsertRoute.
    + apply findPattern_InsertRoute.
Qed.

(** C6. [Mount] panics when the pattern followed by [*] or by [/*] is a
    stored pattern, and leaves the state as it found it: nothing is
    registered.  A [Mount] that returned stored one of the two, so a second
    [Mount] at the same pattern on the same router panics. *)
Theorem Mount_rejects_existing_mount {contract : PatternStoreContract store}
  (w : World) (mx : MuxId) (m : Mux) (t : node) (pattern : string)
  (h : Handler) :
  muxes w !! mx = Some m ->
  trees w !! tree m = Some t ->
  (findPattern t (pattern +:+ "*") || findPattern t (pattern +:+ "/*") = true ->
   Mount mx pattern h w = Panicked (Mount_msg pattern) w)
  /\
  (forall w' h',
     Mount mx pattern h w = Return tt w' ->
     Mount mx pattern h' w' = Panicked (Mount_msg pattern) w').
Proof.
  intros Hm Ht. split.
  - intros Hconf. unfold Mount.
    rewrite (bind_Return _ _ _ _ _ (get_mux_Some w mx m Hm)).
    rewrite (bind_Return _ _ _ _ _ (get_tree_Some w (tree m) t Ht)).
    rewrite Hconf. reflexivity.
  - intros w' h' E.
    destruct (Mount_inv _ _ _ _ _ E) as (m0 & t0 & Hm0 & Ht0 & Hconf & Hsub & Hp).
    assert (m0 = m) by congruence. subst m0.
    assert (t0 = t) by congruence. subst t0.
    destruct (Mount_spec w mx m t pattern h Hm Ht Hconf Hsub Hp)
      as (w2 & m2 & E2 & Hm2 & (Htree & _) & Ht2 & _).
    rewrite E2 in E. inversion E; subst w2. clear E.
    assert (Ht' : trees w' !! tree m2 = Some (mounted_tree m pattern h t))
      by (rewrite Htree, Ht2; apply lookup_insert_eq).
    unfold Mount.
    rewrite (bind_Return _ _ _ _ _ (get_mux_Some w' mx m2 Hm2)).
    rewrite (bind_Return _ _ _ _ _ (get_tree_Some w' (tree m2) _ Ht')).
    rewrite mounted_tree_found. reflexivity.
Qed.


End RouterProperties.

(** * The reference store meets the contract *)

Lemma insert_route_has_pattern (method : Z) (pattern : string) (h : Handler)
  (t : list ListStore.Route) :
  ListStore.has_pattern (ListStore.insert_route method pattern h t) pattern = true.
Proof.
  induction t as [|e rest IH]; cbn.
  - rewrite String.eqb_refl. reflexivity.
  - destruct (String.eqb (ListStore.route_pattern e) pattern) eqn:He; cbn.
    + rewrite String.eqb_refl. reflexivity.
    + rewrite He. exact IH.
Qed.

Lemma mark_subrouter_has_pattern (n : string) (s : MuxId)
  (t : list ListStore.Route) (q : string) :
  ListStore.has_pattern (ListStore.mark_subrouter n s t) q =
  ListStore.has_pattern t q.
Proof.
  induction t as [|e rest IH]; [reflexivity|].
  change (ListStore.has_pattern (ListStore.mark_subrouter n s (e :: rest)) q)
    with (String.eqb
            (ListStore.route_pattern
               (if String.eqb (ListStore.route_pattern e) n
                then ListStore.MkRoute (ListStore.route_pattern e)
                       (ListStore.route_methods e) (ListStore.route_handlers e)
                       (Some s)
                else e)) q
          || ListStore.has_pattern (ListStore.mark_subrouter n s rest) q).
  rewrite IH.
  destruct (String.eqb (ListStore.route_pattern e) n); reflexivity.
Qed.

Lemma ListStore_contract : PatternStoreContract ListStore.store.
Proof.
  split.
  - intros m p h t. apply insert_route_has_pattern.
  - intros n s t q. apply mark_subrouter_has_pattern.
Qed.

(** * The theorems on the example routers *)

Lemma routeHTTP_resolution_order_witness :
  let run := serve Example.user Example.pass in
  let w := Example.in_flight in
  let ps := Params Example.captured in
  run 2 (RouteHTTP 0) (Example.nested_request "BREW" "/hello") w =
  Return tt (emit not_allowed w)
  /\ run 2 (RouteHTTP 0) (Example.nested_request "GET" "/nope") w =
     run 1 HttpNotFound (Example.nested_request "GET" "/nope")
         (queried 0 0 Example.captured ps "/nope" w)
  /\ run 2 (RouteHTTP 0) (Example.nested_request "POST" "/hello") w =
     Return tt (emit not_allowed (queried 0 0 Example.captured ps "/hello" w))
  /\ run 2 (RouteHTTP 0) (Example.nested_request "GET" "/hello") w =
     run 1 (UserHandler 0) (Example.nested_request "GET" "/hello")
         (queried 0 0 Example.captured ps "/hello" w).
Proof.
  intros run w ps.
  assert (Hx : contexts w !! 0 = Some Example.captured)
    by (vm_compute; reflexivity).
  pose proof (fun method path =>
                routeHTTP_resolution_order Example.user Example.pass 1 0
                  (Example.nested_request method path) w 0 Example.captured
                  eq_refl Hx) as T.
  split; [|split; [|split]].
  - apply (proj1 (T "BREW" "/hello")). reflexivity.
  - refine (proj1 (proj1 (proj2 (T "GET" "/nope"))
              Method.GET Example.router0 Example.hello_tree None ps _ _ _ _));
      vm_compute; reflexivity.
  - refine (proj1 (proj2 (T "POST" "/hello"))
              Method.POST Example.router0 Example.hello_tree
              (Some {[Method.GET := UserHandler 0]}) ps _ _ _ _);
      vm_compute; reflexivity.
  - refine (proj1 (proj2 (T "GET" "/hello"))
              Method.GET Example.router0 Example.hello_tree
              (Some {[Method.GET := UserHandler 0]}) ps _ _ _ _);
      vm_compute; reflexivity.
Defined.

Lemma ServeHTTP_nested_reuses_context_witness :
  let run := serve Example.user Example.pass in
  let w := Example.in_flight in
  let fresh_context := with_contexts (insert 1 NewRouteContext) w in
  run 3 (MuxHandler 0) (Example.nested_request "GET" "/hello") w =
  run 2 (RouteHTTP 0) (Example.nested_request "GET" "/hello") w
  /\ run 3 (MuxHandler 0) (Example.request "GET" "/hello") w =
     match run 2 (RouteHTTP 0) (WithContext (Example.request "GET" "/hello") 1)
             (with_contexts
                (insert 1 (outermost_context (Example.request "GET" "/hello")))
                fresh_context) with
     | Return _ w2 => pool_Put 0 1 w2
     | Panicked msg w2 => Panicked msg w2
     | OutOfFuel => OutOfFuel
     end.
Proof.
  intros run w fresh_context.
  assert (Hm : muxes w !! 0 = Some Example.router0) by (vm_compute; reflexivity).
  pose proof (fun method path scope =>
                ServeHTTP_nested_reuses_context Example.user Example.pass 2 0
                  (MkRequest method path scope) w Example.router0 (RouteHTTP 0)
                  Hm eq_refl) as T.
  split.
  - exact (proj1 (T "GET" "/hello" (MkScope 0 (Some 0))) 0 eq_refl).
  - refine (proj2 (T "GET" "/hello" (MkScope 0 None)) 1 fresh_context
              NewRouteContext eq_refl _ _); vm_compute; reflexivity.
Defined.

Lemma ServeHTTP_releases_on_return_witness :
  exists w2,
    serve Example.user Example.pass 3 (MuxHandler 0)
          (Example.request "GET" "/hello") Example.in_flight = Return tt w2
    /\ (fun m => pool_free (pool m)) <$> muxes w2 !! 0 = Some [1].
Proof.
  eexists. split.
  - eapply (proj1 (ServeHTTP_releases_on_return Example.user Example.pass
                     2 0 (Example.request "GET" "/hello") Example.in_flight
                     (with_contexts (insert 1 NewRouteContext) Example.in_flight)
                     Example.router0 (RouteHTTP 0) 1 NewRouteContext
                     ltac:(vm_compute; reflexivity) eq_refl eq_refl
                     ltac:(vm_compute; reflexivity)
                     ltac:(vm_compute; reflexivity)));
      vm_compute; reflexivity.
  - vm_compute. reflexivity.
Defined.

(** C3 as stated fails: [r := NewMux(); api := NewMux(); r.Mount("/api",
    api)], then [GET /api/x].  The outermost [ServeHTTP] takes context 0
    from the pool of [r]; the mounted router has no handler and panics;
    the panic leaves [ServeHTTP] with context 0 alive and the free list of
    [r] empty. *)
Lemma ServeHTTP_panic_skips_release :
  exists w1 w' m,
    pool_Get 0 Example.mounted_empty = Return (Some 0) w1
    /\ serve Example.user Example.pass 5 (MuxHandler 0)
         (Example.request "GET" "/api/x") Example.mounted_empty =
       Panicked ServeHTTP_msg w'
    /\ is_Some (contexts w' !! 0)
    /\ muxes w' !! 0 = Some m
    /\ pool_free (pool m) = [].
Proof.
  eexists _, _, _.
  split; [vm_compute; reflexivity|].
  split; [vm_compute; reflexivity|].
  split; [vm_compute; eauto|].
  split; vm_compute; reflexivity.
Qed.



Lemma Mount_forwards_suffix_witness :
  let run := serve Example.user Example.pass in
  let r := Example.nested_request "GET" "/admin/dashboard" in
  let w' := with_contexts (insert 0 (forwarded Example.captured))
                          Example.mounted_in_flight in
  run 4 (SubHandler (MuxHandler 1)) r Example.mounted_in_flight =
  run 1 (UserHandler 1) r
      (queried 1 0 (forwarded Example.captured) {["id" := "42"]} "/dashboard" w')
  /\ response <$> (match run 4 (SubHandler (MuxHandler 1)) r
                            Example.mounted_in_flight with
                   | Return _ w2 => Some w2
                   | _ => None
                   end) =
     Some [Find 1 "/dashboard"; WriteHeader 200; Write "1"].
Proof.
  intros run r w'.
  assert (H : run 4 (SubHandler (MuxHandler 1)) r Example.mounted_in_flight =
              run 1 (UserHandler 1) r
                  (queried 1 0 (forwarded Example.captured) {["id" := "42"]}
                           "/dashboard" w')).
  { refine (proj2 (proj2 (proj2 (proj2 (proj2
              (Mount_forwards_suffix Example.user Example.pass 1
                 (MuxHandler 1) r Example.mounted_in_flight 0 Example.captured
                 eq_refl ltac:(vm_compute; reflexivity))))))
              1 Example.router1 Method.GET Example.dashboard_tree
              (Some {[Method.GET := UserHandler 1]}) {["id" := "42"]}
              _ _ _ _ _); vm_compute; reflexivity. }
  split; [exact H|]. rewrite H. vm_compute. reflexivity.
Defined.

Lemma Mount_rejects_existing_mount_witness :
  Mount 0 "/admin" (UserHandler 3) Example.mounted =
  Panicked (Mount_msg "/admin") Example.mounted
  /\ exists w',
       Mount 0 "/admin" (UserHandler 1) Example.fresh_router = Return tt w'
       /\ Mount 0 "/admin" (UserHandler 2) w' = Panicked (Mount_msg "/admin") w'.
Proof.
  split.
  - refine (proj1 (Mount_rejects_existing_mount (contract := ListStore_contract)
                     Example.mounted 0 Example.router0 _ "/admin"
                     (UserHandler 3) ltac:(vm_compute; reflexivity) _) _).
    + vm_compute. reflexivity.
    + vm_compute. reflexivity.
  - eexists. split; [vm_compute; reflexivity|].
    apply (proj2 (Mount_rejects_existing_mount (contract := ListStore_contract)
                    Example.fresh_router 0 Example.unbuilt_router []
                    "/admin" (UserHandler 1)
                    ltac:(vm_compute; reflexivity)
                    ltac:(vm_compute; reflexivity))).
    vm_compute. reflexivity.
Defined.

Lemma Use_fails_once_built_witness :
  Use 0 [5] Example.fresh_router =
  Return tt (with_muxes
               (insert 0 (with_middlewares [5] Example.unbuilt_router))
               Example.fresh_router)
  /\ (exists n w',
        handle 0 Method.GET "/hello" (UserHandler 0) Example.fresh_router =
        Return n w'
        /\ Use 0 [5] w' = Panicked Use_msg w')
  /\ Use 0 [5] Example.in_flight = Panicked Use_msg Example.in_flight.
Proof.
  pose proof (Use_fails_once_built Example.fresh_router 0
                Example.unbuilt_router [5] ltac:(vm_compute; reflexivity)) as T.
  split; [|split].
  - exact (proj1 T eq_refl).
  - eexists _, _. split; [vm_compute; reflexivity|].
    eapply (proj1 (proj2 (proj2 T)) Method.GET "/hello" (UserHandler 0)).
    vm_compute. reflexivity.
  - apply (proj1 (proj2 (Use_fails_once_built Example.in_flight 0
                           Example.router0 [5]
                           ltac:(vm_compute; reflexivity)))).
    cbn. eauto.
Defined.



Lemma Chain_makes_inline_router_witness :
  exists im w',
    Chain 0 [7] Example.fresh_router = Return im w'
    /\ muxes w' !! im = Some (MkMux 0 [7] true None (MkPool false []) None)
    /\ forall mws', Use 0 mws' w' = Panicked Use_msg w'.
Proof.
  destruct (Chain_makes_inline_router Example.fresh_router 0
              Example.unbuilt_router [7] ltac:(vm_compute; reflexivity))
    as (im & w' & E & _ & Him & _ & _ & Hseal & _).
  exists im, w'. split; [exact E|]. split; [exact Him|].
  exact (proj2 (Hseal eq_refl eq_refl)).
Defined.

Lemma Mount_wrapper_frame_witness :
  exists w' x',
    serve Example.user Example.pass 2 (SubHandler (UserHandler 0))
          (Example.nested_request "GET" "/admin/dashboard") Example.in_flight =
    serve Example.user Example.pass 1 (UserHandler 0)
          (Example.nested_request "GET" "/admin/dashboard") w'
    /\ contexts w' !! 0 = Some x'
    /\ RoutePath x' = "/dashboard"
    /\ Params x' !! "*" = None
    /\ Params x' !! "id" = Some "42".
Proof.
  destruct (Mount_wrapper_frame Example.user Example.pass 1 (UserHandler 0)
              (Example.nested_request "GET" "/admin/dashboard")
              Example.in_flight 0 Example.captured eq_refl
              ltac:(vm_compute; reflexivity))
    as (w' & x' & E & _ & _ & _ & _ & Hx' & _ & Hpath & Hstar & Hother).
  exists w', x'. split; [exact E|]. split; [exact Hx'|].
  split; [exact Hpath|]. split; [exact Hstar|].
  rewrite (Hother "id" ltac:(discriminate)). reflexivity.
Defined.

(** * Further properties of mux.go *)

Section MoreProperties.
Context {N : NodeType} {store : PatternStore}.
Variable user_handler :
  nat -> (Handler -> Request -> M unit) -> Request -> M unit.
Variable middleware :
  nat -> (Handler -> Request -> M unit) ->
  (Request -> M unit) -> Request -> M unit.

Local Abbreviation run_handler := (serve user_handler middleware).

Lemma bind_inv {A B} (m : M A) (k : A -> M B) (w w' : World) (b : B) :
  bind m k w = Return b w' ->
  exists a w1, m w = Return a w1 /\ k a w1 = Return b w'.
Proof.
  unfold bind. destruct (m w) as [a w1| |]; [eauto|discriminate|discriminate].
Qed.

Lemma handle_registers (w : World) (mx : MuxId) (m : Mux) (t : node)
  (method : Z) (pattern : string) (h : Handler) :
  muxes w !! mx = Some m ->
  trees w !! tree m = Some t ->
  begins_with_slash pattern = true ->
  bind (handle mx method pattern h) (fun _ => ret tt) w =
  Return tt (registered w mx m t method pattern h).
Proof.
  intros Hm Ht Hp.
  rewrite (bind_Return _ _ _ _ _ (handle_spec w mx m t method pattern h Hm Ht Hp)).
  reflexivity.
Qed.

Lemma handle_refuses (w : World) (mx : MuxId) (method : Z) (pattern : string)
  (h : Handler) :
  begins_with_slash pattern = false ->
  bind (handle mx method pattern h) (fun _ => ret tt) w =
  Panicked (handle_msg pattern) w.
Proof.
  intros Hp. apply bind_Panicked. apply handle_unrooted. exact Hp.
Qed.

(** X1. Each registration method stores the handler under its own method
    flag and nothing else: [Get] under GET, [Post] under POST, and so on,
    [Any] under all nine, [Handle] and [HandleFunc] under the set given.
    On a pattern that is empty or does not begin with a slash each of them
    panics and leaves the state as it was, the handler of the router
    unbuilt included. *)
Theorem registration_methods_store_their_flag (w : World) (mx : MuxId)
  (m : Mux) (t : node) (pattern : string) (h : Handler) :
  muxes w !! mx = Some m ->
  trees w !! tree m = Some t ->
  let outcome method :=
    if begins_with_slash pattern
    then Return tt (registered w mx m t method pattern h)
    else Panicked (handle_msg pattern) w in
  Forall (fun entry => fst entry mx pattern h w = outcome (snd entry))
         [(Connect, Method.CONNECT); (Delete, Method.DELETE);
          (Get, Method.GET); (Head, Method.HEAD);
          (Options, Method.OPTIONS); (Patch, Method.PATCH);
          (Post, Method.POST); (Put, Method.PUT); (Trace, Method.TRACE);
          (Any, Method.ANY)]
  /\ (forall method,
        Handle mx method pattern h w = outcome method
        /\ HandleFunc mx method pattern h w = outcome method).
Proof.
  intros Hm Ht outcome. unfold outcome.
  destruct (begins_with_slash pattern) eqn:Hp.
  - split; [|intros method; split]; repeat constructor;
      apply handle_registers; assumption.
  - split; [|intros method; split]; repeat constructor;
      apply handle_refuses; assumption.
Qed.

Lemma sealed_idempotent (mx : MuxId) (m : Mux) :
  sealed mx (sealed mx m) = sealed mx m.
Proof.
  unfold sealed. destruct (inline m) eqn:Hin; cbn; [rewrite Hin; reflexivity|].
  destruct (handler m) eqn:Hh; [rewrite Hin, Hh; reflexivity|].
  cbn. rewrite Hin. reflexivity.
Qed.

(** X2. On a router that is not inline the composed handler is built
    once, by the first registration, around [routeHTTP] and from the
    middlewares that [Use] added until then, in the order they were added;
    a later registration leaves the handler and the middlewares as they
    are, and [Middlewares] returns the same sequence. *)
Theorem composed_handler_built_once (w : World) (mx : MuxId) (m : Mux)
  (t : node) (mws : list nat) (method1 method2 : Z) (p1 p2 : string)
  (h1 h2 : Handler) :
  muxes w !! mx = Some m ->
  trees w !! tree m = Some t ->
  inline m = false ->
  handler m = None ->
  begins_with_slash p1 = true ->
  begins_with_slash p2 = true ->
  let all := middlewares m ++ mws in
  let final := with_handler (Some (chain all (RouteHTTP mx)))
                            (with_middlewares all m) in
  exists w1 n1 w2 n2 w3,
    Use mx mws w = Return tt w1
    /\ handle mx method1 p1 h1 w1 = Return n1 w2
    /\ muxes w2 !! mx = Some final
    /\ handle mx method2 p2 h2 w2 = Return n2 w3
    /\ muxes w3 !! mx = Some final
    /\ Middlewares mx w3 = Return all w3.
Proof.
  intros Hm Ht Hin Hh Hp1 Hp2 all final.
  set (m1 := with_middlewares all m).
  assert (Hm1 : muxes (with_muxes (insert mx m1) w) !! mx = Some m1)
    by (cbn; apply lookup_insert_eq).
  assert (Hs1 : sealed mx m1 = final).
  { unfold sealed, m1. cbn. rewrite Hin, Hh. reflexivity. }
  assert (Hs2 : sealed mx final = final).
  { rewrite <- Hs1. apply sealed_idempotent. }
  eexists _, _, _, _, _.
  split; [apply Use_unbuilt; eassumption|].
  split; [apply (handle_spec _ mx m1 t method1 p1 h1 Hm1 Ht Hp1)|].
  split; [cbn; rewrite Hs1; apply lookup_insert_eq|].
  split.
  - eapply (handle_spec _ mx final _ method2 p2 h2).
    + cbn. rewrite Hs1. apply lookup_insert_eq.
    + cbn. apply lookup_insert_eq.
    + exact Hp2.
  - split.
    + cbn. rewrite Hs2. apply lookup_insert_eq.
    + unfold Middlewares, bind, get_mux. cbn.
      rewrite Hs2, lookup_insert_eq. reflexivity.
Qed.

(** [Chain] followed by a registration on the router it returned. *)
Lemma Chain_then_handle (w : World) (mx : MuxId) (m : Mux) (t : node)
  (mws : list nat) (method : Z) (pattern : string) (h : Handler) :
  muxes w !! mx = Some m ->
  trees w !! tree m = Some t ->
  begins_with_slash pattern = true ->
  let inherited := if inline m then middlewares m else [] in
  let child := MkMux (tree m) (inherited ++ mws) true None (MkPool false []) None in
  exists im w1 n w2,
    Chain mx mws w = Return im w1
    /\ muxes w !! im = None
    /\ im <> mx
    /\ muxes w1 !! im = Some child
    /\ trees w1 = trees w
    /\ handle im method pattern h w1 = Return n w2
    /\ w2 = MkWorld (<[im := with_handler (Some (RouteHTTP im)) child]> (muxes w1))
                    (<[tree m := fst (InsertRoute method pattern
                                        (chain (inherited ++ mws) h) t)]>
                       (trees w))
                    (contexts w) (response w).
Proof.
  intros Hm Ht Hp inherited child.
  pose proof (fresh_mux_unused w) as Hfresh.
  set (im := fresh (dom (muxes w))) in *.
  assert (Hne : im <> mx) by (intros ->; congruence).
  eexists im, _, _, _.
  split; [apply Chain_spec; exact Hm|]. fold im.
  split; [exact Hfresh|]. split; [exact Hne|].
  split; [cbn; apply lookup_insert_eq|].
  split; [reflexivity|].
  split.
  - eapply (handle_spec _ im child t method pattern h).
    + cbn. apply lookup_insert_eq.
    + exact Ht.
    + exact Hp.
  - reflexivity.
Qed.

(** X3. A route registered on the router that [Chain] returned is stored
    in the tree of the receiver, wrapped in the middlewares of the new
    router: those of the receiver when the receiver is inline, then the
    ones given to [Chain].  The registration assigns [routeHTTP] itself as
    handler of the new router and leaves the record of the receiver as
    [Chain] left it. *)
Theorem Chain_route_stored_in_receiver_tree (w : World) (mx : MuxId) (m : Mux)
  (t : node) (mws : list nat) (method : Z) (pattern : string) (h : Handler) :
  muxes w !! mx = Some m ->
  trees w !! tree m = Some t ->
  begins_with_slash pattern = true ->
  let inherited := if inline m then middlewares m else [] in
  exists im w1 n w2,
    Chain mx mws w = Return im w1
    /\ muxes w !! im = None
    /\ handle im method pattern h w1 = Return n w2
    /\ trees w2 =
       <[tree m := fst (InsertRoute method pattern
                          (chain (inherited ++ mws) h) t)]> (trees w)
    /\ muxes w2 !! im =
       Some (MkMux (tree m) (inherited ++ mws) true (Some (RouteHTTP im))
                   (MkPool false []) None)
    /\ muxes w2 !! mx = muxes w1 !! mx.
Proof.
  intros Hm Ht Hp inherited.
  destruct (Chain_then_handle w mx m t mws method pattern h Hm Ht Hp)
    as (im & w1 & n & w2 & E1 & Hfresh & Hne & _ & _ & E2 & ->).
  eexists im, w1, n, _.
  split; [exact E1|]. split; [exact Hfresh|]. split; [exact E2|].
  split; [reflexivity|]. cbn.
  split; [apply lookup_insert_eq|].
  apply lookup_insert_ne. exact Hne.
Qed.

Lemma ServeHTTP_without_pool call (mx : MuxId) (r : Request) (w : World)
  (m : Mux) (h : Handler) :
  muxes w !! mx = Some m ->
  handler m = Some h ->
  pool m = MkPool false [] ->
  routing (r_Context r) = None ->
  ServeHTTP call mx r w = Panicked not_a_Context w.
Proof.
  intros Hm Hh Hpool Hr. unfold ServeHTTP.
  rewrite (bind_Return _ _ _ _ _ (get_mux_Some w mx m Hm)), Hh, Hr.
  rewrite (bind_Return _ _ w w None); [reflexivity|].
  unfold pool_Get.
  rewrite (bind_Return _ _ _ _ _ (get_mux_Some w mx m Hm)), Hpool.
  reflexivity.
Qed.

(** X4. A router made by [Chain] cannot serve on its own: its pool has no
    constructor, so once it holds a handler an outermost [ServeHTTP] on it
    panics at the type assertion on what the pool returned, before the
    handler runs and with the state untouched.  Called with a request that
    carries a routing context, it routes. *)
Theorem inline_router_cannot_serve_outermost (w : World) (mx : MuxId)
  (m : Mux) (t : node) (mws : list nat) (method : Z) (pattern : string)
  (h : Handler) :
  muxes w !! mx = Some m ->
  trees w !! tree m = Some t ->
  begins_with_slash pattern = true ->
  exists im w1 n w2,
    Chain mx mws w = Return im w1
    /\ handle im method pattern h w1 = Return n w2
    /\ forall fuel r,
         (routing (r_Context r) = None ->
          run_handler (S fuel) (MuxHandler im) r w2 = Panicked not_a_Context w2)
         /\ (forall c, routing (r_Context r) = Some c ->
              run_handler (S fuel) (MuxHandler im) r w2 =
              run_handler fuel (RouteHTTP im) r w2).
Proof.
  intros Hm Ht Hp.
  destruct (Chain_then_handle w mx m t mws method pattern h Hm Ht Hp)
    as (im & w1 & n & w2 & E1 & _ & _ & _ & _ & E2 & Hw2).
  exists im, w1, n, w2. split; [exact E1|]. split; [exact E2|].
  assert (Him : muxes w2 !! im =
                Some (with_handler (Some (RouteHTTP im))
                        (MkMux (tree m)
                           ((if inline m then middlewares m else []) ++ mws)
                           true None (MkPool false []) None)))
    by (rewrite Hw2; cbn; apply lookup_insert_eq).
  intros fuel r. split.
  - intros Hr. cbn [serve].
    eapply ServeHTTP_without_pool; [exact Him|reflexivity|reflexivity|exact Hr].
  - intros c Hr. cbn [serve].
    eapply ServeHTTP_nested; [exact Him|reflexivity|exact Hr].
Qed.

Lemma chain_inherited (m : Mux) (h : Handler) :
  chain ((if inline m then middlewares m else []) ++ []) h =
  registered_handler m h.
Proof.
  rewrite app_nil_r. unfold registered_handler.
  destruct (inline m); reflexivity.
Qed.

(** X5. A route registered inside [Group] is stored in the tree of the
    receiver exactly as a registration on the receiver itself would store
    it: as given when the receiver is not inline, inside the middlewares
    of the receiver when it is.  [Group] returns a new router, and a
    receiver that is not inline has its handler built afterwards. *)
Theorem Group_route_stored_as_on_receiver (w : World) (mx : MuxId) (m : Mux)
  (t : node) (method : Z) (pattern : string) (h : Handler) :
  muxes w !! mx = Some m ->
  trees w !! tree m = Some t ->
  begins_with_slash pattern = true ->
  exists im w',
    Group mx (Some (fun r => Handle r method pattern h)) w = Return im w'
    /\ muxes w !! im = None
    /\ trees w' = trees (registered w mx m t method pattern h)
    /\ contexts w' = contexts w
    /\ response w' = response w
    /\ (inline m = false -> built w' mx).
Proof.
  intros Hm Ht Hp.
  destruct (Chain_then_handle w mx m t [] method pattern h Hm Ht Hp)
    as (im & w1 & n & w2 & E1 & Hfresh & Hne & _ & _ & E2 & Hw2).
  exists im, w2. split.
  - unfold Group. rewrite (bind_Return _ _ _ _ _ E1).
    unfold Handle. rewrite (bind_Return _ _ w1 w2 tt); [reflexivity|].
    rewrite (bind_Return _ _ _ _ _ E2). reflexivity.
  - split; [exact Hfresh|]. rewrite Hw2. cbn.
    rewrite chain_inherited.
    split; [reflexivity|]. split; [reflexivity|]. split; [reflexivity|].
    intros Hin.
    pose proof E1 as E1'. rewrite (Chain_spec w mx m [] Hm) in E1'.
    inversion E1'; subst im w1. unfold built. cbn.
    rewrite lookup_insert_ne by exact Hne.
    rewrite lookup_insert_ne by exact Hne.
    rewrite lookup_insert_eq, Hin. cbn.
    destruct (handler m) as [h0|] eqn:Hh; cbn; eauto.
Qed.

(** X6. [NotFound] is accepted at any time, on a router whose handler is
    built too, and [NotFoundHandler] then returns the handler it was
    given; without an override [NotFoundHandler] returns [http.NotFound].
    [routeHTTP] asks for the not-found handler when it dispatches, so the
    override also serves the unmatched paths of routes registered before
    it.  No tree changes: a placeholder that an earlier [Mount] stored
    keeps the not-found handler of that time. *)
Theorem NotFound_takes_effect (w : World) (mx : MuxId) (m : Mux) (h : Handler) :
  muxes w !! mx = Some m ->
  let w' := with_muxes (insert mx (with_notFoundHandler (Some h) m)) w in
  NotFound mx h w = Return tt w'
  /\ NotFoundHandler mx w' = Return h w'
  /\ (notFoundHandler m = None -> NotFoundHandler mx w = Return HttpNotFound w)
  /\ trees w' = trees w
  /\ (forall call r c x method n ps,
        routing (r_Context r) = Some c ->
        contexts w !! c = Some x ->
        Method.MethodMap (r_Method r) = Some method ->
        trees w !! tree m = Some n ->
        FindRoute n (Params x) (routePath_of x r) = (None, ps) ->
        routeHTTP call mx r w' =
        call h r (queried (tree m) c x ps (routePath_of x r) w')).
Proof.
  intros Hm w'.
  assert (Hm' : muxes w' !! mx = Some (with_notFoundHandler (Some h) m))
    by (cbn; apply lookup_insert_eq).
  split; [|split; [|split; [|split]]].
  - unfold NotFound. rewrite (bind_Return _ _ _ _ _ (get_mux_Some w mx m Hm)).
    reflexivity.
  - rewrite (NotFoundHandler_spec w' mx _ Hm'). reflexivity.
  - intros Hnf. rewrite (NotFoundHandler_spec w mx m Hm).
    unfold effective_not_found. rewrite Hnf. reflexivity.
  - reflexivity.
  - intros call r c x method n ps Hr Hx Hmeth Hn Hfind.
    exact (routeHTTP_known_method call mx r w' c x method
             (with_notFoundHandler (Some h) m) n None ps Hr Hx Hmeth Hm' Hn
             Hfind).
Qed.



(** X8. A [Mount] whose pattern ends in a slash registers one route
    only, the pattern followed by [*], for the forwarding closure, under
    [ANY], or under [ANY|_STUB] with the sub-router marked when the
    handler is a router.  No placeholder is stored for the pattern
    itself. *)
Theorem Mount_trailing_slash_registers_one (w : World) (mx : MuxId) (m : Mux)
  (t : node) (pattern : string) (h : Handler) :
  muxes w !! mx = Some m ->
  trees w !! tree m = Some t ->
  begins_with_slash pattern = true ->
  lacks_trailing_slash pattern = false ->
  findPattern t (pattern +:+ "*") || findPattern t (pattern +:+ "/*") = false ->
  (forall s, as_Mux h = Some s -> is_Some (muxes w !! s)) ->
  let route := InsertRoute
                 match as_Mux h with
                 | Some _ => Z.lor Method.ANY Method._STUB
                 | None => Method.ANY
                 end
                 (pattern +:+ "*") (registered_handler m (SubHandler h)) t in
  exists w',
    Mount mx pattern h w = Return tt w'
    /\ trees w' =
       <[tree m := match as_Mux h with
                   | Some s => set_subrouter (snd route) s (fst route)
                   | None => fst route
                   end]> (trees w)
    /\ contexts w' = contexts w
    /\ response w' = response w.
Proof.
  intros Hm Ht Hp Hl Hconf Hsub route.
  destruct (Mount_spec w mx m t pattern h Hm Ht Hconf Hsub Hp)
    as (w' & m' & E & _ & _ & Ht' & Hc & Hr).
  exists w'. split; [exact E|]. split; [|auto].
  rewrite Ht'. unfold mounted_tree. rewrite Hl. reflexivity.
Qed.

(** X9. [Mount] is not all-or-nothing.  The not-found handler of the
    receiver is handed to the sub-router before the first registration, so
    a [Mount] of a router that has none, on a pattern that does not begin
    with a slash, panics in [handle] with nothing registered and the
    sub-router already changed. *)
Theorem Mount_unrooted_keeps_inheritance (w : World) (mx s : MuxId)
  (m sm : Mux) (t : node) (pattern : string) (nf : Handler) :
  muxes w !! mx = Some m ->
  trees w !! tree m = Some t ->
  findPattern t (pattern +:+ "*") || findPattern t (pattern +:+ "/*") = false ->
  muxes w !! s = Some sm ->
  notFoundHandler sm = None ->
  notFoundHandler m = Some nf ->
  begins_with_slash pattern = false ->
  Mount mx pattern (MuxHandler s) w =
  Panicked
    (handle_msg (if lacks_trailing_slash pattern then pattern
                 else pattern +:+ "*"))
    (with_muxes (insert s (with_notFoundHandler (Some nf) sm)) w).
Proof.
  intros Hm Ht Hconf Hs Hsnf Hnf Hp. unfold Mount.
  rewrite (bind_Return _ _ _ _ _ (get_mux_Some w mx m Hm)).
  rewrite (bind_Return _ _ _ _ _ (get_tree_Some w (tree m) t Ht)).
  rewrite Hconf. cbv zeta. cbn [as_Mux].
  rewrite (bind_Return _ _ w
             (with_muxes (insert s (with_notFoundHandler (Some nf) sm)) w) tt).
  2:{ rewrite (bind_Return _ _ _ _ _ (get_mux_Some w s sm Hs)).
      rewrite Hsnf, Hnf. cbn [is_nil]. unfold NotFound.
      rewrite (bind_Return _ _ _ _ _ (get_mux_Some w s sm Hs)). reflexivity. }
  destruct (lacks_trailing_slash pattern) eqn:Hl.
  - apply bind_Panicked. apply bind_Panicked. apply handle_unrooted. exact Hp.
  - rewrite (bind_Return _ _ _ _ pattern eq_refl).
    apply bind_Panicked. apply handle_unrooted.
    rewrite (begins_with_slash_app_inv _ _ Hl). exact Hp.
Qed.

Lemma handle_others (w w' : World) (mx : MuxId) (method : Z) (pattern : string)
  (h : Handler) (n : endpoint) :
  handle mx method pattern h w = Return n w' ->
  forall o, o <> mx -> muxes w' !! o = muxes w !! o.
Proof.
  intros E o Ho.
  destruct (handle_inv _ _ _ _ _ _ _ E) as (Hp & m & t & Hm & Ht).
  rewrite (handle_spec w mx m t method pattern h Hm Ht Hp) in E.
  inversion E; subst. cbn. apply lookup_insert_ne. congruence.
Qed.

Lemma set_subrouter_others (w w' : World) (t : TreeId) (n : endpoint) (s : MuxId) :
  bind (get_tree t) (fun t' => set_tree t (set_subrouter n s t')) w = Return tt w' ->
  muxes w' = muxes w.
Proof.
  unfold bind, get_tree. destruct (trees w !! t); [|discriminate].
  cbn. intros E. inversion E. reflexivity.
Qed.

(** What [Mount] leaves of the record of a router it mounts. *)
Lemma Mount_sub_router (w w' : World) (mx s : MuxId) (m sm : Mux)
  (pattern : string) :
  Mount mx pattern (MuxHandler s) w = Return tt w' ->
  muxes w !! mx = Some m ->
  muxes w !! s = Some sm ->
  s <> mx ->
  muxes w' !! s =
  Some (match notFoundHandler sm, notFoundHandler m with
        | None, Some nf => with_notFoundHandler (Some nf) sm
        | _, _ => sm
        end).
Proof.
  intros E Hm Hs Hne.
  destruct (Mount_inv _ _ _ _ _ E) as (m0 & t & Hm0 & Ht & Hconf & _ & _).
  assert (m0 = m) by congruence. subst m0.
  unfold Mount in E.
  rewrite (bind_Return _ _ _ _ _ (get_mux_Some w mx m Hm)) in E.
  rewrite (bind_Return _ _ _ _ _ (get_tree_Some w (tree m) t Ht)) in E.
  rewrite Hconf in E. cbv zeta in E. cbn [as_Mux] in E.
  apply bind_inv in E. destruct E as ([] & w1 & E1 & E).
  assert (H1 : muxes w1 !! s =
               Some (match notFoundHandler sm, notFoundHandler m with
                     | None, Some nf => with_notFoundHandler (Some nf) sm
                     | _, _ => sm
                     end)).
  { rewrite (bind_Return _ _ _ _ _ (get_mux_Some w s sm Hs)) in E1.
    destruct (notFoundHandler sm) eqn:Hsnf; cbn [is_nil] in E1.
    - inversion E1; subst. exact Hs.
    - destruct (notFoundHandler m) eqn:Hnf.
      + unfold NotFound in E1.
        rewrite (bind_Return _ _ _ _ _ (get_mux_Some w s sm Hs)) in E1.
        inversion E1; subst. cbn. apply lookup_insert_eq.
      + inversion E1; subst. exact Hs. }
  rewrite <- H1. clear H1 E1.
  apply bind_inv in E. destruct E as (pattern' & w2 & E2 & E).
  assert (H2 : muxes w2 !! s = muxes w1 !! s).
  { destruct (lacks_trailing_slash pattern).
    - apply bind_inv in E2. destruct E2 as (n1 & wa & Ea & E2).
      apply bind_inv in E2. destruct E2 as (n2 & wb & Eb & E2).
      inversion E2; subst.
      apply bind_inv in Eb. destruct Eb as (nf & wc & Ec & Eb).
      unfold NotFoundHandler in Ec.
      apply bind_inv in Ec. destruct Ec as (mc & wd & Ed & Ec).
      assert (wd = wa).
      { unfold get_mux in Ed. destruct (muxes wa !! mx); inversion Ed.
        reflexivity. }
      subst wd.
      assert (wc = wa) by (destruct (notFoundHandler mc); inversion Ec; reflexivity).
      subst wc.
      rewrite (handle_others _ _ _ _ _ _ _ Eb s Hne).
      apply (handle_others _ _ _ _ _ _ _ Ea s Hne).
    - inversion E2; subst. reflexivity. }
  rewrite <- H2. clear H2 E2.
  apply bind_inv in E. destruct E as (n & w3 & E3 & E).
  rewrite <- (handle_others _ _ _ _ _ _ _ E3 s Hne).
  rewrite (set_subrouter_others _ _ _ _ _ E). reflexivity.
Qed.

(** X10. A [Mount] of a router hands the not-found handler of the
    receiver to it exactly when the mounted router has none of its own and
    the receiver has one; a not-found handler the mounted router already
    has is kept.  Nothing else of the mounted router changes: its handler,
    middlewares, tree and pool are as before. *)
Theorem Mount_hands_down_not_found (w : World) (mx s : MuxId) (m sm : Mux)
  (t : node) (pattern : string) :
  muxes w !! mx = Some m ->
  trees w !! tree m = Some t ->
  begins_with_slash pattern = true ->
  findPattern t (pattern +:+ "*") || findPattern t (pattern +:+ "/*") = false ->
  muxes w !! s = Some sm ->
  s <> mx ->
  exists w',
    Mount mx pattern (MuxHandler s) w = Return tt w'
    /\ muxes w' !! s =
       Some (MkMux (tree sm) (middlewares sm) (inline sm) (handler sm) (pool sm)
                   match notFoundHandler sm with
                   | Some own => Some own
                   | None => notFoundHandler m
                   end).
Proof.
  intros Hm Ht Hp Hconf Hs Hne.
  assert (Hsub : forall s0, as_Mux (MuxHandler s) = Some s0 ->
                            is_Some (muxes w !! s0)).
  { intros s0 Hs0. inversion Hs0; subst. eauto. }
  destruct (Mount_spec w mx m t pattern (MuxHandler s) Hm Ht Hconf Hsub Hp)
    as (w' & _ & E & _).
  exists w'. split; [exact E|].
  rewrite (Mount_sub_router w w' mx s m sm pattern E Hm Hs Hne).
  destruct sm as [st smw sin sh sp snf]. cbn.
  destruct snf; [reflexivity|]. destruct (notFoundHandler m); reflexivity.
Qed.

Lemma NewMux_spec (w : World) :
  NewMux w =
  Return (fresh (dom (muxes w)))
    (with_muxes
       (insert (fresh (dom (muxes w)))
          (MkMux (fresh (dom (trees w))) [] false None (MkPool true []) None))
       (with_trees (insert (fresh (dom (trees w))) empty_node) w)).
Proof. reflexivity. Qed.

Lemma fresh_tree_unused (w : World) : trees w !! fresh (dom (trees w)) = None.
Proof. apply not_elem_of_dom. apply is_fresh. Qed.

(** X11. [Route] without a callback makes a new router with a new, empty
    tree, mounts it at the pattern on the receiver and returns it.  The
    new router has the not-found handler of the receiver and no composed
    handler, so [ServeHTTP] on it panics: a request that the receiver
    forwards to it cannot be served. *)
Theorem Route_mounts_new_router (w : World) (mx : MuxId) (m : Mux) (t : node)
  (pattern : string) :
  muxes w !! mx = Some m ->
  trees w !! tree m = Some t ->
  begins_with_slash pattern = true ->
  findPattern t (pattern +:+ "*") || findPattern t (pattern +:+ "/*") = false ->
  exists sub w',
    Route mx pattern None w = Return sub w'
    /\ muxes w !! sub = None
    /\ trees w !! fresh (dom (trees w)) = None
    /\ muxes w' !! sub =
       Some (MkMux (fresh (dom (trees w))) [] false None (MkPool true [])
                   (notFoundHandler m))
    /\ trees w' !! fresh (dom (trees w)) = Some empty_node
    /\ trees w' !! tree m = Some (mounted_tree m pattern (MuxHandler sub) t)
    /\ (forall call r, ServeHTTP call sub r w' = Panicked ServeHTTP_msg w').
Proof.
  intros Hm Ht Hp Hconf.
  pose proof (fresh_mux_unused w) as Hfm.
  pose proof (fresh_tree_unused w) as Hft.
  set (sub := fresh (dom (muxes w))) in *.
  set (t' := fresh (dom (trees w))) in *.
  set (new := MkMux t' [] false None (MkPool true []) None).
  set (w1 := with_muxes (insert sub new) (with_trees (insert t' empty_node) w)).
  assert (Hne : sub <> mx) by (intros ->; congruence).
  assert (Hnt : t' <> tree m) by (intros Heq; rewrite Heq in Hft; congruence).
  assert (Hm1 : muxes w1 !! mx = Some m)
    by (cbn; rewrite lookup_insert_ne by exact Hne; exact Hm).
  assert (Ht1 : trees w1 !! tree m = Some t)
    by (cbn; rewrite lookup_insert_ne by exact Hnt; exact Ht).
  assert (Hs1 : muxes w1 !! sub = Some new) by (cbn; apply lookup_insert_eq).
  assert (Hsub : forall s0, as_Mux (MuxHandler sub) = Some s0 ->
                            is_Some (muxes w1 !! s0)).
  { intros s0 Hs0. inversion Hs0; subst. eauto. }
  destruct (Mount_spec w1 mx m t pattern (MuxHandler sub) Hm1 Ht1 Hconf Hsub Hp)
    as (w' & _ & E & _ & _ & Ht' & _).
  pose proof (Mount_sub_router w1 w' mx sub m new pattern E Hm1 Hs1 Hne) as Hs'.
  assert (Hs'' : muxes w' !! sub =
                 Some (MkMux t' [] false None (MkPool true [])
                             (notFoundHandler m))).
  { rewrite Hs'. cbn. destruct (notFoundHandler m); reflexivity. }
  exists sub, w'. split.
  - unfold Route. rewrite (bind_Return _ _ _ _ _ (NewMux_spec w)).
    fold sub t' new w1.
    rewrite (bind_Return _ _ w1 w1 tt eq_refl).
    rewrite (bind_Return _ _ _ _ _ E). reflexivity.
  - split; [exact Hfm|]. split; [exact Hft|]. split; [exact Hs''|].
    split; [|split].
    + rewrite Ht'. rewrite lookup_insert_ne by congruence.
      cbn. apply lookup_insert_eq.
    + rewrite Ht'. apply lookup_insert_eq.
    + intros call r.
      eapply ServeHTTP_no_handler; [exact Hs''|reflexivity].
Qed.

Lemma Mount_conflict_panics (w : World) (mx : MuxId) (m : Mux)
  (t : node) (pattern : string) (h : Handler) :
  muxes w !! mx = Some m ->
  trees w !! tree m = Some t ->
  findPattern t (pattern +:+ "*") || findPattern t (pattern +:+ "/*") = true ->
  Mount mx pattern h w = Panicked (Mount_msg pattern) w.
Proof.
  intros Hm Ht Hconf. unfold Mount.
  rewrite (bind_Return _ _ _ _ _ (get_mux_Some w mx m Hm)).
  rewrite (bind_Return _ _ _ _ _ (get_tree_Some w (tree m) t Ht)).
  rewrite Hconf. reflexivity.
Qed.

(** X12. [FileServer] registers one route, the path followed by [*],
    under GET only, and panics like any registration when that pattern
    does not begin with a slash.  The route occupies the mount point: a
    later [Mount] at the same path panics, and so does a [Mount] at the
    path without its trailing slash. *)
Theorem FileServer_occupies_mount_point
  {contract : PatternStoreContract store}
  (w : World) (mx : MuxId) (m : Mux) (t : node) (path : string) (root : nat) :
  muxes w !! mx = Some m ->
  trees w !! tree m = Some t ->
  (begins_with_slash (path +:+ "*") = false ->
   FileServer mx path root w = Panicked (handle_msg (path +:+ "*")) w)
  /\
  (begins_with_slash (path +:+ "*") = true ->
   let w' := registered w mx m t Method.GET (path +:+ "*") (UserHandler root) in
   FileServer mx path root w = Return tt w'
   /\ (forall h, Mount mx path h w' = Panicked (Mount_msg path) w')
   /\ (forall prefix h,
         path = prefix +:+ "/" ->
         Mount mx prefix h w' = Panicked (Mount_msg prefix) w')).
Proof.
  intros Hm Ht. split.
  - intros Hp. apply handle_refuses. exact Hp.
  - intros Hp w'.
    assert (Hm' : muxes w' !! mx = Some (sealed mx m))
      by (cbn; apply lookup_insert_eq).
    assert (Htree : tree (sealed mx m) = tree m)
      by (apply (same_routing_sealed mx m)).
    assert (Ht' : trees w' !! tree (sealed mx m) =
                  Some (fst (InsertRoute Method.GET (path +:+ "*")
                               (registered_handler m (UserHandler root)) t)))
      by (rewrite Htree; cbn; apply lookup_insert_eq).
    split; [apply handle_registers; assumption|]. split.
    + intros h.
      apply (Mount_conflict_panics w' mx (sealed mx m) _ path h Hm' Ht').
      rewrite findPattern_InsertRoute. reflexivity.
    + intros prefix h ->.
      apply (Mount_conflict_panics w' mx (sealed mx m) _ prefix h Hm' Ht').
      rewrite (append_assoc prefix "/" "*") in *.
      apply orb_true_iff. right. apply findPattern_InsertRoute.
Qed.

Lemma last_byte_app_slash (p : string) : last_byte (p +:+ "/") = Some slash.
Proof.
  induction p as [|c p IH]; [reflexivity|].
  change (last_byte (String c (p +:+ "/")) = Some slash).
  destruct (p +:+ "/") eqn:E; [discriminate IH|exact IH].
Qed.

Lemma lacks_trailing_slash_app_slash (p : string) :
  lacks_trailing_slash (p +:+ "/") = false.
Proof.
  unfold lacks_trailing_slash. rewrite last_byte_app_slash.
  destruct p; reflexivity.
Qed.

(** What a [Mount] that returned left in the tree of the receiver. *)
Lemma Mount_returned (w w' : World) (mx : MuxId) (pattern : string) (h : Handler) :
  Mount mx pattern h w = Return tt w' ->
  exists m m' t,
    muxes w !! mx = Some m
    /\ trees w !! tree m = Some t
    /\ muxes w' !! mx = Some m'
    /\ trees w' !! tree m' = Some (mounted_tree m pattern h t).
Proof.
  intros E.
  destruct (Mount_inv _ _ _ _ _ E) as (m & t & Hm & Ht & Hconf & Hsub & Hp).
  destruct (Mount_spec w mx m t pattern h Hm Ht Hconf Hsub Hp)
    as (w2 & m2 & E2 & Hm2 & (Htree & _) & Ht2 & _).
  rewrite E2 in E. inversion E; subst w2.
  exists m, m2, t. repeat split; try assumption.
  rewrite Htree, Ht2. apply lookup_insert_eq.
Qed.

(** X13. A mount point with and without its trailing slash is the same
    mount point: after a [Mount] at a pattern without trailing slash a
    [Mount] at the pattern followed by a slash panics, and the other way
    round. *)
Theorem Mount_slash_variants_collide {contract : PatternStoreContract store}
  (w w' : World) (mx : MuxId) (pattern : string) (h h' : Handler) :
  (lacks_trailing_slash pattern = true ->
   Mount mx pattern h w = Return tt w' ->
   Mount mx (pattern +:+ "/") h' w' = Panicked (Mount_msg (pattern +:+ "/")) w')
  /\
  (Mount mx (pattern +:+ "/") h w = Return tt w' ->
   Mount mx pattern h' w' = Panicked (Mount_msg pattern) w').
Proof.
  split.
  - intros Hl E.
    destruct (Mount_returned _ _ _ _ _ E) as (m & m' & t & _ & _ & Hm' & Ht').
    apply (Mount_conflict_panics w' mx m' _ _ h' Hm' Ht').
    apply orb_true_iff. left. unfold mounted_tree. rewrite Hl. cbv zeta.
    destruct (as_Mux h).
    + rewrite findPattern_set_subrouter. apply findPattern_InsertRoute.
    + apply findPattern_InsertRoute.
  - intros E.
    destruct (Mount_returned _ _ _ _ _ E) as (m & m' & t & _ & _ & Hm' & Ht').
    apply (Mount_conflict_panics w' mx m' _ _ h' Hm' Ht').
    apply orb_true_iff. right. unfold mounted_tree.
    rewrite lacks_trailing_slash_app_slash. cbv zeta.
    change (pattern +:+ "/*") with (pattern +:+ ("/" +:+ "*")).
    rewrite <- (append_assoc pattern "/" "*").
    destruct (as_Mux h).
    + rewrite findPattern_set_subrouter. apply findPattern_InsertRoute.
    + apply findPattern_InsertRoute.
Qed.

End MoreProperties.

(** * The further properties on the example routers *)

Lemma registration_methods_store_their_flag_witness :
  Get 0 "/hello" (UserHandler 0) Example.fresh_router =
  Return tt (registered Example.fresh_router 0 Example.unbuilt_router []
                        Method.GET "/hello" (UserHandler 0))
  /\ Post 0 "hello" (UserHandler 0) Example.fresh_router =
     Panicked (handle_msg "hello") Example.fresh_router.
Proof.
  assert (Hm : muxes Example.fresh_router !! 0 = Some Example.unbuilt_router)
    by (vm_compute; reflexivity).
  assert (Ht : trees Example.fresh_router !! 0 = Some [])
    by (vm_compute; reflexivity).
  split.
  - exact (proj1 (Forall_lookup _ _)
             (proj1 (registration_methods_store_their_flag
                       Example.fresh_router 0 Example.unbuilt_router []
                       "/hello" (UserHandler 0) Hm Ht))
             2 (Get, Method.GET) eq_refl).
  - exact (proj1 (Forall_lookup _ _)
             (proj1 (registration_methods_store_their_flag
                       Example.fresh_router 0 Example.unbuilt_router []
                       "hello" (UserHandler 0) Hm Ht))
             6 (Post, Method.POST) eq_refl).
Defined.

Lemma composed_handler_built_once_witness :
  exists w1 n1 w2 n2 w3,
    Use 0 [5; 6] Example.fresh_router = Return tt w1
    /\ handle 0 Method.GET "/a" (UserHandler 0) w1 = Return n1 w2
    /\ handle 0 Method.POST "/b" (UserHandler 1) w2 = Return n2 w3
    /\ muxes w3 !! 0 =
       Some (MkMux 0 [5; 6] false (Some (Chained [5; 6] (RouteHTTP 0)))
                   (MkPool true []) None).
Proof.
  destruct (composed_handler_built_once Example.fresh_router 0
              Example.unbuilt_router [] [5; 6] Method.GET Method.POST
              "/a" "/b" (UserHandler 0) (UserHandler 1)
              ltac:(vm_compute; reflexivity) ltac:(vm_compute; reflexivity)
              eq_refl eq_refl eq_refl eq_refl)
    as (w1 & n1 & w2 & n2 & w3 & E1 & E2 & _ & E3 & H3 & _).
  exists w1, n1, w2, n2, w3. auto.
Defined.

Lemma Chain_route_stored_in_receiver_tree_witness :
  exists im w1 n w2,
    Chain 0 [7] Example.fresh_router = Return im w1
    /\ handle im Method.GET "/hello" (UserHandler 0) w1 = Return n w2
    /\ trees w2 !! 0 =
       Some [ListStore.MkRoute "/hello" Method.GET
               {[Method.GET := Chained [7] (UserHandler 0)]} None].
Proof.
  destruct (Chain_route_stored_in_receiver_tree Example.fresh_router 0
              Example.unbuilt_router [] [7] Method.GET "/hello" (UserHandler 0)
              ltac:(vm_compute; reflexivity) ltac:(vm_compute; reflexivity)
              eq_refl)
    as (im & w1 & n & w2 & E1 & _ & E2 & Ht & _).
  exists im, w1, n, w2. split; [exact E1|]. split; [exact E2|].
  rewrite Ht. vm_compute. reflexivity.
Defined.

Lemma inline_router_cannot_serve_outermost_witness :
  exists im w1 n w2,
    Chain 0 [] Example.fresh_router = Return im w1
    /\ handle im Method.GET "/hello" (UserHandler 0) w1 = Return n w2
    /\ serve Example.user Example.pass 1 (MuxHandler im)
             (Example.request "GET" "/hello") w2 = Panicked not_a_Context w2.
Proof.
  destruct (inline_router_cannot_serve_outermost Example.user Example.pass
              Example.fresh_router 0 Example.unbuilt_router [] []
              Method.GET "/hello" (UserHandler 0)
              ltac:(vm_compute; reflexivity) ltac:(vm_compute; reflexivity)
              eq_refl)
    as (im & w1 & n & w2 & E1 & E2 & H).
  exists im, w1, n, w2. split; [exact E1|]. split; [exact E2|].
  exact (proj1 (H 0 (Example.request "GET" "/hello")) eq_refl).
Defined.

Lemma Group_route_stored_as_on_receiver_witness :
  exists im w',
    Group 0 (Some (fun r => Handle r Method.GET "/hello" (UserHandler 0)))
          Example.fresh_router = Return im w'
    /\ trees w' !! 0 = Some Example.hello_tree
    /\ built w' 0.
Proof.
  destruct (Group_route_stored_as_on_receiver Example.fresh_router 0
              Example.unbuilt_router [] Method.GET "/hello" (UserHandler 0)
              ltac:(vm_compute; reflexivity) ltac:(vm_compute; reflexivity)
              eq_refl)
    as (im & w' & E & _ & Ht & _ & _ & Hb).
  exists im, w'. split; [exact E|]. split; [|exact (Hb eq_refl)].
  rewrite Ht. vm_compute. reflexivity.
Defined.

Lemma NotFound_takes_effect_witness :
  let w' := with_muxes
              (insert 0 (with_notFoundHandler (Some (UserHandler 7))
                                              Example.router0))
              Example.in_flight in
  NotFound 0 (UserHandler 7) Example.in_flight = Return tt w'
  /\ routeHTTP (serve Example.user Example.pass 1) 0
               (Example.nested_request "GET" "/nope") w' =
     serve Example.user Example.pass 1 (UserHandler 7)
           (Example.nested_request "GET" "/nope")
           (queried 0 0 Example.captured (Params Example.captured) "/nope" w').
Proof.
  intros w'.
  pose proof (NotFound_takes_effect Example.in_flight 0 Example.router0
                (UserHandler 7) ltac:(vm_compute; reflexivity)) as T.
  split; [exact (proj1 T)|].
  refine (proj2 (proj2 (proj2 (proj2 T)))
            (serve Example.user Example.pass 1)
            (Example.nested_request "GET" "/nope") 0 Example.captured
            Method.GET Example.hello_tree (Params Example.captured)
            eq_refl _ _ _ _); vm_compute; reflexivity.
Defined.


Lemma Mount_trailing_slash_registers_one_witness :
  exists w',
    Mount 0 "/admin/" (UserHandler 1) Example.fresh_router = Return tt w'
    /\ (fun t => map (fun e => (ListStore.route_pattern e,
                                ListStore.route_methods e)) t)
       <$> trees w' !! 0 = Some [("/admin/*", 511%Z)].
Proof.
  destruct (Mount_trailing_slash_registers_one Example.fresh_router 0
              Example.unbuilt_router [] "/admin/" (UserHandler 1)
              ltac:(vm_compute; reflexivity) ltac:(vm_compute; reflexivity)
              eq_refl eq_refl eq_refl
              ltac:(intros s Hs; discriminate Hs))
    as (w' & E & Ht & _).
  exists w'. split; [exact E|]. rewrite Ht. vm_compute. reflexivity.
Defined.

Lemma Mount_unrooted_keeps_inheritance_witness :
  Mount 0 "api" (MuxHandler 1) Example.custom_404 =
  Panicked (handle_msg "api")
    (with_muxes
       (insert 1 (with_notFoundHandler (Some (UserHandler 7))
                                       Example.router1_unbuilt))
       Example.custom_404).
Proof.
  exact (Mount_unrooted_keeps_inheritance Example.custom_404 0 1
           Example.router0_custom_404 Example.router1_unbuilt [] "api"
           (UserHandler 7)
           ltac:(vm_compute; reflexivity) ltac:(vm_compute; reflexivity)
           eq_refl ltac:(vm_compute; reflexivity) eq_refl eq_refl eq_refl).
Defined.

Lemma Mount_hands_down_not_found_witness :
  exists w',
    Mount 0 "/api" (MuxHandler 1) Example.custom_404 = Return tt w'
    /\ muxes w' !! 1 =
       Some (MkMux 1 [] false None (MkPool true []) (Some (UserHandler 7))).
Proof.
  exact (Mount_hands_down_not_found Example.custom_404 0 1
           Example.router0_custom_404 Example.router1_unbuilt [] "/api"
           ltac:(vm_compute; reflexivity) ltac:(vm_compute; reflexivity)
           eq_refl eq_refl ltac:(vm_compute; reflexivity)
           ltac:(discriminate)).
Defined.

Lemma Route_mounts_new_router_witness :
  exists sub w',
    Route 0 "/api" None Example.fresh_router = Return sub w'
    /\ muxes w' !! sub = Some (MkMux 1 [] false None (MkPool true []) None)
    /\ serve Example.user Example.pass 1 (MuxHandler sub)
             (Example.nested_request "GET" "/x") w' =
       Panicked ServeHTTP_msg w'.
Proof.
  destruct (Route_mounts_new_router Example.fresh_router 0
              Example.unbuilt_router [] "/api"
              ltac:(vm_compute; reflexivity) ltac:(vm_compute; reflexivity)
              eq_refl eq_refl)
    as (sub & w' & E & _ & _ & Hs & _ & _ & Hpanic).
  exists sub, w'. split; [exact E|]. split.
  - rewrite Hs. vm_compute. reflexivity.
  - exact (Hpanic (serve Example.user Example.pass 0)
                  (Example.nested_request "GET" "/x")).
Defined.

Lemma FileServer_occupies_mount_point_witness :
  let w' := registered Example.fresh_router 0 Example.unbuilt_router []
                       Method.GET "/static/*" (UserHandler 3) in
  FileServer 0 "/static/" 3 Example.fresh_router = Return tt w'
  /\ Mount 0 "/static/" (UserHandler 1) w' = Panicked (Mount_msg "/static/") w'
  /\ Mount 0 "/static" (UserHandler 1) w' = Panicked (Mount_msg "/static") w'.
Proof.
  intros w'.
  pose proof (proj2 (FileServer_occupies_mount_point
                       (contract := ListStore_contract)
                       Example.fresh_router 0 Example.unbuilt_router []
                       "/static/" 3
                       ltac:(vm_compute; reflexivity)
                       ltac:(vm_compute; reflexivity)) eq_refl) as T.
  split; [exact (proj1 T)|]. split.
  - exact (proj1 (proj2 T) (UserHandler 1)).
  - exact (proj2 (proj2 T) "/static" (UserHandler 1) eq_refl).
Defined.

Lemma Mount_slash_variants_collide_witness :
  (exists w',
     Mount 0 "/admin" (UserHandler 1) Example.fresh_router = Return tt w'
     /\ Mount 0 "/admin/" (UserHandler 2) w' =
        Panicked (Mount_msg "/admin/") w')
  /\ (exists w',
        Mount 0 "/admin/" (UserHandler 1) Example.fresh_router = Return tt w'
        /\ Mount 0 "/admin" (UserHandler 2) w' =
           Panicked (Mount_msg "/admin") w').
Proof.
  split.
  - eexists. split; [vm_compute; reflexivity|].
    apply (proj1 (Mount_slash_variants_collide (contract := ListStore_contract)
                    Example.fresh_router _ 0 "/admin" (UserHandler 1)
                    (UserHandler 2)) eq_refl).
    vm_compute. reflexivity.
  - eexists. split; [vm_compute; reflexivity|].
    apply (proj2 (Mount_slash_variants_collide (contract := ListStore_contract)
                    Example.fresh_router _ 0 "/admin" (UserHandler 1)
                    (UserHandler 2))).
    vm_compute. reflexivity.
Defined.
